(** * MAX31856 thermocouple driver: register mirror, bus protocol, decoders

    A shallow embedding of [max31856.py].  Python integers are [Z], the
    [bytearray] mirror is a [list Z], the two lookup tables are a [gmap]
    (thermocouple types, looked up by key) and an association list in source
    order (fault descriptions, iterated), and the methods of [Max31856] are
    written in a state-and-exception monad over the driver object, the chip
    behind the bus and the log of bus activity.  Float arithmetic is IEEE
    binary64, as in Python. *)

From Stdlib Require Import ZArith Floats Uint63 Lia.
From stdpp Require Import base list strings gmap.

Set Warnings "-inexact-float".
Local Open Scope Z_scope.

(** ** Module-level constants *)

Definition CR0_REG : Z := 0x00.
Definition CR0_AUTOCONVERT : Z := 0x80.
Definition CR0_ONESHOT : Z := 0x40.
Definition CR0_OCFAULT1 : Z := 0x20.
Definition CR0_OCFAULT0 : Z := 0x10.
Definition CR0_CJ : Z := 0x08.
Definition CR0_FAULT : Z := 0x04.
Definition CR0_FAULTCLR : Z := 0x02.
Definition CR0_50HZ : Z := 0x01.

Definition CR1_REG : Z := 0x01.
Definition CR1_AVGSEL1 : Z := 0x00.
Definition CR1_AVGSEL2 : Z := 0x10.
Definition CR1_AVGSEL4 : Z := 0x20.
Definition CR1_AVGSEL8 : Z := 0x30.
Definition CR1_AVGSEL16 : Z := 0x40.

Definition MASK_REG : Z := 0x02.
Definition CJHF_REG : Z := 0x03.
Definition CJLF_REG : Z := 0x04.
Definition LTHFTH_REG : Z := 0x05.
Definition LTHFTL_REG : Z := 0x06.
Definition LTLFTH_REG : Z := 0x07.
Definition LTLFTL_REG : Z := 0x08.
Definition CJTO_REG : Z := 0x09.
Definition CJTH_REG : Z := 0x0A.
Definition CJTL_REG : Z := 0x0B.
Definition LTCBH_REG : Z := 0x0C.
Definition LTCBM_REG : Z := 0x0D.
Definition LTCBL_REG : Z := 0x0E.
Definition SR_REG : Z := 0x0F.

(** The [faults] dict, in source order: [faults.items()] is iterated, and a
    dict literal iterates in insertion order. *)
Definition faults : list (Z * string) :=
  [ (0x01, "open"); (0x02, "OV/UV"); (0x04, "tclow"); (0x08, "tchigh");
    (0x10, "cjlow"); (0x20, "cjhigh"); (0x40, "tcrange"); (0x80, "cjrange") ]%string.

(** The [tctypes] dict, only ever subscripted. *)
Definition tctypes : gmap string Z :=
  <["B":=0]> (<["E":=1]> (<["J":=2]> (<["K":=3]> (<["N":=4]> (<["R":=5]>
  (<["S":=6]> (<["T":=7]> (<["VG8":=8]> (<["VG32":=12]> ∅))))))))).

Definition CR0_DEFAULT : Z :=
  Z.lor (Z.lor (Z.lor CR0_OCFAULT0 CR0_FAULTCLR) CR0_AUTOCONVERT) CR0_50HZ.

Definition CR1_DEFAULT : Z := CR1_AVGSEL16.

(** Every name bound at the top level of the module, by the imports, the
    assignments and the [def]/[class] statements, in source order. *)
Definition module_globals : list string :=
  [ "struct"; "OrderedDict"; "const";
    "CR0_REG"; "CR0_AUTOCONVERT"; "CR0_ONESHOT"; "CR0_OCFAULT1"; "CR0_OCFAULT0";
    "CR0_CJ"; "CR0_FAULT"; "CR0_FAULTCLR"; "CR0_50HZ";
    "CR1_REG"; "CR1_AVGSEL1"; "CR1_AVGSEL2"; "CR1_AVGSEL4"; "CR1_AVGSEL8";
    "CR1_AVGSEL16";
    "MASK_REG"; "CJHF_REG"; "CJLF_REG"; "LTHFTH_REG"; "LTHFTL_REG"; "LTLFTH_REG";
    "LTLFTL_REG"; "CJTO_REG"; "CJTH_REG"; "CJTL_REG"; "LTCBH_REG"; "LTCBM_REG";
    "LTCBL_REG"; "SR_REG";
    "FAULT_CJRANGE"; "FAULT_TCRANGE"; "FAULT_CJHIGH"; "FAULT_CJLOW";
    "FAULT_TCHIGH"; "FAULT_TCLOW"; "FAULT_OVUV"; "FAULT_OPEN";
    "faults"; "tctypes"; "nullprint"; "myprint";
    "CR0_DEFAULT"; "CR1_DEFAULT"; "Max31856" ]%string.

(** ** Python values and exceptions *)

Inductive exn : Type :=
| KeyError (key : string)
| NameError (name : string)
| ValueError
| IndexError
| StructError.

(** The name of the class of a raised exception. *)
Definition exn_class (e : exn) : string :=
  match e with
  | KeyError _ => "KeyError"
  | NameError _ => "NameError"
  | ValueError => "ValueError"
  | IndexError => "IndexError"
  | StructError => "struct.error"
  end.

Inductive result (A : Type) : Type :=
| Ok (a : A)
| Raise (e : exn).
Arguments Ok {A} a.
Arguments Raise {A} e.

Definition is_byte (x : Z) : bool := (0 <=? x) && (x <? 256).

(** Slice bounds as Python adjusts them (step 1): a negative bound counts
    from the end, and both are clamped to the sequence. *)
Definition adjust_index (len i : Z) : Z :=
  if i <? 0 then Z.max 0 (i + len) else Z.min i len.

(** [l[start:stop]] *)
Definition getslice {A} (l : list A) (start stop : Z) : list A :=
  let len := Z.of_nat (length l) in
  let lo := adjust_index len start in
  let hi := adjust_index len stop in
  take (Z.to_nat (hi - lo)) (drop (Z.to_nat lo) l).

(** [l[start:]] *)
Definition getslice_from {A} (l : list A) (start : Z) : list A :=
  drop (Z.to_nat (adjust_index (Z.of_nat (length l)) start)) l.

(** [l[start:stop] = v]: the slice is replaced by [v], whatever its length. *)
Definition setslice {A} (l : list A) (start stop : Z) (v : list A) : list A :=
  let len := Z.of_nat (length l) in
  let lo := adjust_index len start in
  let hi := Z.max lo (adjust_index len stop) in
  take (Z.to_nat lo) l ++ v ++ drop (Z.to_nat hi) l.

(** Position of [l[i]], when there is one. *)
Definition item_index {A} (l : list A) (i : Z) : option nat :=
  let len := Z.of_nat (length l) in
  let j := if i <? 0 then i + len else i in
  if (0 <=? j) && (j <? len) then Some (Z.to_nat j) else None.

(** [int.from_bytes(buf, 'big')] *)
Definition be_unsigned (buf : list Z) : Z :=
  fold_left (fun acc b => acc * 256 + b) buf 0.

(** [struct.unpack('>i', buf)[0]] for [n = 4], [struct.unpack('>h', buf)[0]]
    for [n = 2]: the buffer must have exactly [n] bytes, read big-endian in
    two's complement. *)
Definition struct_unpack_be (n : nat) (buf : list Z) : result Z :=
  if decide (length buf = n) then
    let u := be_unsigned buf in
    Ok (if u <? 2 ^ (8 * Z.of_nat n - 1) then u else u - 2 ^ (8 * Z.of_nat n))
  else Raise StructError.

(** [float(z)], exact for the 32-bit values the decoders produce. *)
Definition float_of_int (z : Z) : float :=
  if z <? 0 then PrimFloat.opp (PrimFloat.of_uint63 (Uint63.of_Z (- z)))
  else PrimFloat.of_uint63 (Uint63.of_Z z).

(** ** The bus and the chip behind it *)

(** What the driver needs of [spi_obj] and [cs_pin]: the chip sees the level of
    its select pin, and every byte clocked out clocks one byte in. *)
Class SpiDevice (chip : Type) : Type := {
  cs_set : chip → Z → chip;
  exchange : chip → Z → chip * Z
}.

Inductive event : Type :=
| CsValue (v : Z)
| SpiInit (baudrate polarity phase : Z)
| SpiWrite (buf : list Z)
| SpiWriteReadinto (tx rx : list Z)
| Sleep (secs : Z).

Fixpoint spi_transfer `{SpiDevice chip} (c : chip) (tx : list Z) : chip * list Z :=
  match tx with
  | [] => (c, [])
  | x :: tx' =>
      let '(c1, r) := exchange c x in
      let '(c2, rs) := spi_transfer c1 tx' in
      (c2, r :: rs)
  end.

(** The driver object with its collaborators: the attributes of [self], the
    chip reached through [self.spi] and [self.cs], and what happened on the
    bus so far, oldest first. *)
Record World (chip : Type) : Type := mkWorld {
  tc_type : string;
  regs : list Z;
  hw : chip;
  log : list event
}.
Arguments mkWorld {chip}.
Arguments tc_type {chip}.
Arguments regs {chip}.
Arguments hw {chip}.
Arguments log {chip}.

(** ** The monad of methods: state that survives a raised exception *)

Definition M (chip A : Type) : Type := World chip → result A * World chip.

#[global] Instance M_ret chip : MRet (M chip) := λ A a w, (Ok a, w).
#[global] Instance M_bind chip : MBind (M chip) := λ A B f m w,
  match m w with
  | (Ok a, w') => f a w'
  | (Raise e, w') => (Raise e, w')
  end.

Definition raise {chip A} (e : exn) : M chip A := λ w, (Raise e, w).

(** ** Primitive actions *)

Section Actions.
Context {chip : Type} `{SpiDevice chip}.

Definition get_regs : M chip (list Z) := λ w, (Ok (regs w), w).

Definition set_regs (r : list Z) : M chip unit := λ w,
  (Ok tt, mkWorld (tc_type w) r (hw w) (log w)).

Definition set_tc_type (t : string) : M chip unit := λ w,
  (Ok tt, mkWorld t (regs w) (hw w) (log w)).

(** [self.cs.value(v)] *)
Definition cs_value (v : Z) : M chip unit := λ w,
  (Ok tt, mkWorld (tc_type w) (regs w) (cs_set (hw w) v) (log w ++ [CsValue v])).

(** [self.spi.init(baudrate=..., polarity=..., phase=...)] *)
Definition spi_init (baudrate polarity phase : Z) : M chip unit := λ w,
  (Ok tt, mkWorld (tc_type w) (regs w) (hw w)
                  (log w ++ [SpiInit baudrate polarity phase])).

(** [self.spi.write(b)]: what comes back is dropped. *)
Definition spi_write (b : list Z) : M chip unit := λ w,
  let '(c, _) := spi_transfer (hw w) b in
  (Ok tt, mkWorld (tc_type w) (regs w) c (log w ++ [SpiWrite b])).

(** [self.spi.write_readinto(b, b)]: [b] is sent and overwritten in place
    with what comes back; the result is the new content of [b]. *)
Definition spi_write_readinto (b : list Z) : M chip (list Z) := λ w,
  let '(c, rx) := spi_transfer (hw w) b in
  (Ok rx, mkWorld (tc_type w) (regs w) c (log w ++ [SpiWriteReadinto b rx])).

(** [time.sleep(secs)] *)
Definition time_sleep (secs : Z) : M chip unit := λ w,
  (Ok tt, mkWorld (tc_type w) (regs w) (hw w) (log w ++ [Sleep secs])).

(** Reading a global name of the module. *)
Definition load_global (name : string) : M chip unit :=
  if decide (name ∈ module_globals) then mret tt else raise (NameError name).

(** [bytearray(n)] *)
Definition bytearray_zeros (n : Z) : M chip (list Z) :=
  if n <? 0 then raise ValueError else mret (replicate (Z.to_nat n) 0).

(** [bytearray(ints)] *)
Definition bytearray_of (ints : list Z) : M chip (list Z) :=
  if forallb is_byte ints then mret ints else raise ValueError.

(** [b[i]] *)
Definition getitem (b : list Z) (i : Z) : M chip Z :=
  match item_index b i with
  | Some j => match b !! j with Some x => mret x | None => raise IndexError end
  | None => raise IndexError
  end.

(** [b[i] = x] on a bytearray [b] *)
Definition setitem (b : list Z) (i x : Z) : M chip (list Z) :=
  match item_index b i with
  | Some j => if is_byte x then mret (<[j:=x]> b) else raise ValueError
  | None => raise IndexError
  end.

(** [d[key]] *)
Definition dict_getitem (d : gmap string Z) (key : string) : M chip Z :=
  match d !! key with
  | Some v => mret v
  | None => raise (KeyError key)
  end.

Definition lift_result {A} (r : result A) : M chip A := λ w, (r, w).

(** [myprint] is bound to [nullprint] ([if True:]): its arguments are
    formatted from integers and a slice, and nothing is printed. *)
Definition myprint : M chip unit := mret tt.
End Actions.

(** ** The methods of class [Max31856] *)

Module Max31856.
Section Methods.
Context {chip : Type} `{SpiDevice chip}.

Definition write_regs (start_addr count : Z) : M chip unit :=
  cs_value 0;;
  b ← bytearray_of [Z.lor start_addr 0x80];
  r ← get_regs;
  let b := b ++ getslice r start_addr (start_addr + count) in
  spi_write b;;
  cs_value 1;;
  myprint.

Definition read_regs (start_addr count : Z) : M chip unit :=
  cs_value 0;;
  b ← bytearray_zeros (count + 1);
  b ← setitem b 0 start_addr;
  b ← spi_write_readinto b;
  cs_value 1;;
  myprint;;
  r ← get_regs;
  set_regs (setslice r start_addr (start_addr + count) (getslice_from b 1)).

Definition __init__ (tc_type : string) (cr0 cr1 : Z) : M chip unit :=
  set_tc_type tc_type;;
  cs_value 1;;
  spi_init 1000000 0 1;;
  r ← bytearray_zeros 16;
  set_regs r;;
  read_regs CR0_REG 16;;
  r ← get_regs;
  r ← setitem r CR0_REG cr0;
  set_regs r;;
  code ← dict_getitem tctypes tc_type;
  r ← get_regs;
  r ← setitem r CR1_REG (Z.lor (Z.land cr1 0xF0) code);
  set_regs r;;
  r ← get_regs;
  r ← setitem r MASK_REG 0;
  set_regs r;;
  write_regs CR0_REG 3;;
  read_regs CR0_REG 3.

Definition read_data : M chip unit :=
  read_regs CJTH_REG 6.

Definition one_shot : M chip unit :=
  r ← get_regs;
  x ← getitem r CR0_REG;
  r ← setitem r CR0_REG (Z.land x (Z.lnot CR0_AUTOCONVERT));
  set_regs r;;
  r ← get_regs;
  x ← getitem r CR0_REG;
  r ← setitem r CR0_REG (Z.lor x CR0_ONESHOT);
  set_regs r;;
  write_regs CR0_REG 1;;
  load_global "time";;
  time_sleep 200;;
  read_data.

Definition temperature (read_chip : bool) : M chip float :=
  (if read_chip then read_data else mret tt);;
  load_global "struct";;
  r ← get_regs;
  t ← lift_result (struct_unpack_be 4 (getslice r LTCBH_REG (LTCBH_REG + 4)));
  let temp := PrimFloat.mul (float_of_int t) 9.53674316406e-7%float in
  mret temp.

Definition faults (read_chip : bool) : M chip (Z * string) :=
  (if read_chip then read_data else mret tt);;
  r ← get_regs;
  f ← getitem r SR_REG;
  if f =? 0 then mret (0, ""%string)
  else
    let fl := fold_left
                (λ fl '(bit, desc), if Z.land f bit =? 0 then fl else fl ++ [desc])
                faults [] in
    let fs := String.concat "+" fl in
    mret (f, fs).

Definition cold_junction (read_chip : bool) : M chip float :=
  (if read_chip then read_data else mret tt);;
  load_global "struct";;
  r ← get_regs;
  t ← lift_result (struct_unpack_be 2 (getslice r CJTH_REG (CJTL_REG + 1)));
  mret (PrimFloat.mul (float_of_int t) (PrimFloat.div (float_of_int 1) 256.0%float)).
End Methods.
End Max31856.

(** ** The buffers of a transaction *)

Section Buffers.
Context {chip : Type} `{SpiDevice chip}.
Implicit Types (w : World chip).

(** The buffer a write sends, and the buffers of a read. *)
Definition write_buf w (start_addr count : Z) : list Z :=
  Z.lor start_addr 0x80 :: getslice (regs w) start_addr (start_addr + count).

Definition read_tx (start_addr count : Z) : list Z :=
  start_addr :: replicate (Z.to_nat count) 0.

Definition read_rx w (start_addr count : Z) : list Z :=
  (spi_transfer (cs_set (hw w) 0) (read_tx start_addr count)).2.
End Buffers.

(** ** The encodings the decoders are specified against *)

(** A big-endian two's-complement integer of four bytes: the bytes weighted
    by falling powers of 256, less 2^32 when the top bit of the first byte is
    set. *)
Definition be_signed32 (b0 b1 b2 b3 : Z) : Z :=
  let u := b0 * 2 ^ 24 + b1 * 2 ^ 16 + b2 * 2 ^ 8 + b3 in
  if 128 <=? b0 then u - 2 ^ 32 else u.

(** The same of two bytes. *)
Definition be_signed16 (hi lo : Z) : Z :=
  let u := hi * 2 ^ 8 + lo in
  if 128 <=? hi then u - 2 ^ 16 else u.

(** The fault that bit [k] of the status register reports. *)
Definition fault_description (k : Z) : string :=
  match k with
  | 0 => "open"
  | 1 => "OV/UV"
  | 2 => "tclow"
  | 3 => "tchigh"
  | 4 => "cjlow"
  | 5 => "cjhigh"
  | 6 => "tcrange"
  | 7 => "cjrange"
  | _ => ""
  end.

(** The descriptions of the bits set in [f], from bit 0 up to bit 7. *)
Definition active_faults (f : Z) : list string :=
  map fault_description (filter (λ k, Z.testbit f k = true) (seqZ 0 8)).

(** ** Two concrete chips, for running the driver *)

(** Nothing drives the data line: every byte read is [0xFF]. *)
#[global] Instance floating_bus : SpiDevice unit :=
  {| cs_set := λ c _, c; exchange := λ c _, (c, 0xFF) |}.

(** A chip that answers each byte with a running count of the bytes it has
    seen (modulo 256), restarting when it is selected. *)
#[global] Instance counting_chip : SpiDevice Z :=
  {| cs_set := λ c v, if v =? 0 then 0 else c;
     exchange := λ c _, (c + 1, c mod 256) |}.

Definition mirror0 : list Z := replicate 16 0.

(** Mirrors whose last four bytes are [0x000186A0] and [0xFFFE7960], and
    mirrors whose cold-junction pair is [0x1900] and [0xF700]. *)
Definition mirror_tc_pos : list Z := replicate 12 0 ++ [0x00; 0x01; 0x86; 0xA0].
Definition mirror_tc_neg : list Z := replicate 12 0 ++ [0xFF; 0xFE; 0x79; 0x60].
Definition mirror_cj_pos : list Z := replicate 10 0 ++ [0x19; 0x00] ++ replicate 4 0.
Definition mirror_cj_neg : list Z := replicate 10 0 ++ [0xF7; 0x00] ++ replicate 4 0.

Definition world0 {chip} (c : chip) (r : list Z) : World chip := mkWorld "K" r c [].

(** ** The polling application, [thermo_tx.py] *)

(** What [json.load] can return. *)
#[local] Set Warnings "-register-all".
Inductive json : Type :=
| JNull
| JBool (b : bool)
| JInt (z : Z)
| JFloat (f : float)
| JStr (s : string)
| JList (l : list json)
| JDict (items : list (string * json)).

(** The module-level [config] dict of [thermo_tx.py]. *)
Definition config : gmap string json :=
  <["mqtt" := JDict [("server", JStr "mqtt.local"); ("user", JStr "mqtt_user");
                     ("password", JStr "mqtt_password"); ("keepalive", JInt 60)]]>
  (<["tc_type" := JStr "K"]> (<["interval_seconds" := JInt 10]> ∅)).

Inductive app_exn : Type :=
| AttributeError (attr : string).

(** [load_config()], run on a given [config].  The outcome of the [try] block
    is an input: [inr v] when [thermo_tx.json] opens and parses to [v],
    [inl msg] when either step raises an exception that prints as [msg].
    The result is the [config] left behind, with the exception escaping from
    the loop header if there is one, and the lines printed. *)
Definition load_config (file : string + json) (config : gmap string json)
  : gmap string json * option app_exn * list string :=
  let '(cfg, out) :=
    match file with
    | inr v => (v, [])
    | inl msg => (JDict [], ["Config exception " +:+ msg])
    end in
  match cfg with
  | JDict items =>
      (foldl (λ config '(k, v), <[k := v]> config) config items, None, out)
  | _ => (config, Some (AttributeError "items"), out)
  end.

Section Application.
Context {chip : Type} `{SpiDevice chip}.

(** The three readings that the loop body of [main] takes from the driver on
    each cycle (after the sleep, before formatting and publishing):
    [tc = max31856.temperature(read_chip=True)], [cj = max31856.cold_junction()]
    and [f, fs = max31856.faults()]. *)
Definition main_loop_readings : M chip (float * float * (Z * string)) :=
  tc ← Max31856.temperature true;
  cj ← Max31856.cold_junction false;
  ffs ← Max31856.faults false;
  mret (tc, cj, ffs).
End Application.

(** ** Python sequences: slices that stay in range *)

Lemma byte_cases (P : Z → bool) :
  forallb P (seqZ 0 256) = true → ∀ b, 0 ≤ b < 256 → P b = true.
Proof.
  intros HP b Hb. rewrite forallb_forall in HP. apply HP.
  apply list_elem_of_In, elem_of_seqZ. lia.
Qed.

Lemma is_byte_spec x : is_byte x = true ↔ 0 ≤ x < 256.
Proof. unfold is_byte. rewrite andb_true_iff, Z.leb_le, Z.ltb_lt. tauto. Qed.

Lemma adjust_index_in_range len i : 0 ≤ i ≤ len → adjust_index len i = i.
Proof.
  intros Hi. unfold adjust_index.
  destruct (Z.ltb_spec i 0); lia.
Qed.

Lemma getslice_in_range {A} (l : list A) (a n : nat) :
  (a + n ≤ length l)%nat →
  getslice l (Z.of_nat a) (Z.of_nat a + Z.of_nat n) = take n (drop a l).
Proof.
  intros Hl. unfold getslice.
  rewrite !adjust_index_in_range by lia.
  f_equal; [lia | f_equal; lia].
Qed.

Lemma setslice_in_range {A} (l v : list A) (a n : nat) :
  (a + n ≤ length l)%nat →
  setslice l (Z.of_nat a) (Z.of_nat a + Z.of_nat n) v
  = take a l ++ v ++ drop (a + n) l.
Proof.
  intros Hl. unfold setslice.
  rewrite !adjust_index_in_range by lia.
  rewrite Z.max_r by lia.
  repeat f_equal; lia.
Qed.

Lemma getslice_from_1 {A} (x : A) (l : list A) : getslice_from (x :: l) 1 = l.
Proof.
  unfold getslice_from. rewrite adjust_index_in_range.
  - reflexivity.
  - rewrite length_cons. lia.
Qed.

(** Replacing [n] elements at [a] by [n] others leaves the rest in place. *)
Lemma splice_length {A} (l v : list A) (a n : nat) :
  (a + n ≤ length l)%nat → length v = n →
  length (take a l ++ v ++ drop (a + n) l) = length l.
Proof.
  intros Hl Hv. rewrite !length_app, length_take, length_drop. lia.
Qed.

Lemma splice_lookup_inside {A} (l v : list A) (a n i : nat) :
  (a + n ≤ length l)%nat → length v = n → (i < n)%nat →
  (take a l ++ v ++ drop (a + n) l) !! (a + i)%nat = v !! i.
Proof.
  intros Hl Hv Hi.
  rewrite lookup_app_r; rewrite length_take; [|lia].
  replace (a + i - a `min` length l)%nat with i by lia.
  apply lookup_app_l. lia.
Qed.

Lemma splice_lookup_outside {A} (l v : list A) (a n i : nat) :
  (a + n ≤ length l)%nat → length v = n → ¬ (a ≤ i < a + n)%nat →
  (take a l ++ v ++ drop (a + n) l) !! i = l !! i.
Proof.
  intros Hl Hv Hi.
  destruct (decide (i < a)%nat) as [Hlt|Hge].
  - rewrite lookup_app_l by (rewrite length_take; lia).
    apply lookup_take_lt. lia.
  - rewrite lookup_app_r; rewrite length_take; [|lia].
    rewrite lookup_app_r by lia.
    rewrite lookup_drop. f_equal. lia.
Qed.

Lemma lor_write_bit_byte a : 0 ≤ a < 128 → is_byte (Z.lor a 0x80) = true.
Proof.
  intros Ha.
  apply (byte_cases (λ a, is_byte (Z.lor a 0x80))); [by vm_compute | lia].
Qed.

(** A transfer clocks in as many bytes as it clocks out. *)
Lemma spi_transfer_length `{SpiDevice chip} (c : chip) tx :
  length (spi_transfer c tx).2 = length tx.
Proof.
  revert c. induction tx as [|x tx IH]; intros c; simpl; [done|].
  destruct (exchange c x) as [c1 r].
  specialize (IH c1). destruct (spi_transfer c1 tx) as [c2 rs].
  simpl in *. by rewrite IH.
Qed.

(** ** What one bus transaction does *)

#[local] Arguments spi_transfer : simpl never.
#[local] Arguments getslice : simpl never.
#[local] Arguments getslice_from : simpl never.
#[local] Arguments setslice : simpl never.
#[local] Arguments is_byte : simpl never.
#[local] Arguments Z.lor : simpl never.
#[local] Arguments Z.land : simpl never.
#[local] Arguments Z.lnot : simpl never.
#[local] Arguments Z.to_nat : simpl never.
#[local] Arguments Z.of_nat : simpl never.
#[local] Arguments Z.add : simpl never.
#[local] Arguments replicate : simpl never.

Ltac unfold_actions :=
  unfold cs_value, spi_init, bytearray_zeros, bytearray_of, getitem, setitem,
    dict_getitem, get_regs, set_regs, set_tc_type, spi_write,
    spi_write_readinto, time_sleep, myprint, lift_result;
  unfold mbind, M_bind, mret, M_ret, raise.

Section Runs.
Context {chip : Type} `{SpiDevice chip}.
Implicit Types (w : World chip) (c : chip).

Lemma write_regs_run w start_addr count :
  0 ≤ start_addr < 128 →
  Max31856.write_regs start_addr count w
  = (Ok tt,
     mkWorld (tc_type w) (regs w)
       (cs_set (spi_transfer (cs_set (hw w) 0) (write_buf w start_addr count)).1 1)
       (log w ++ [CsValue 0; SpiWrite (write_buf w start_addr count); CsValue 1])).
Proof.
  intros Ha. unfold Max31856.write_regs, write_buf.
  unfold_actions. cbn [forallb].
  rewrite lor_write_bit_byte by done. simpl.
  destruct (spi_transfer _ _) as [c rx]. simpl.
  by rewrite <- !app_assoc.
Qed.

Lemma read_rx_length w start_addr count :
  0 ≤ count → length (read_rx w start_addr count) = S (Z.to_nat count).
Proof.
  intros Hc. unfold read_rx. rewrite spi_transfer_length.
  unfold read_tx. by rewrite length_cons, length_replicate.
Qed.

Lemma read_regs_run w start_addr count :
  0 ≤ start_addr < 256 → 0 ≤ count →
  Max31856.read_regs start_addr count w
  = (Ok tt,
     mkWorld (tc_type w)
       (setslice (regs w) start_addr (start_addr + count)
                 (drop 1 (read_rx w start_addr count)))
       (cs_set (spi_transfer (cs_set (hw w) 0) (read_tx start_addr count)).1 1)
       (log w ++ [CsValue 0;
                  SpiWriteReadinto (read_tx start_addr count)
                                   (read_rx w start_addr count);
                  CsValue 1])).
Proof.
  intros Ha Hc.
  pose proof (read_rx_length w start_addr count Hc) as Hlen.
  unfold Max31856.read_regs, read_rx, read_tx in *.
  unfold_actions.
  destruct (Z.ltb_spec (count + 1) 0) as [|_]; [lia|].
  replace (Z.to_nat (count + 1)) with (S (Z.to_nat count)) by lia.
  rewrite replicate_S. unfold item_index. rewrite length_cons, length_replicate.
  destruct (Z.ltb_spec 0 0) as [|_]; [lia|].
  destruct (Z.leb_spec 0 0) as [_|]; [|lia].
  destruct (Z.ltb_spec 0 (Z.of_nat (S (Z.to_nat count)))) as [_|]; [|lia].
  apply is_byte_spec in Ha. simpl. rewrite Ha. simpl.
  change (Z.to_nat 0) with 0%nat. cbn [insert list_insert].
  destruct (spi_transfer _ _) as [c rx]. simpl in *.
  destruct rx as [|r0 rx]; [done|].
  rewrite getslice_from_1. simpl.
  by rewrite <- !app_assoc.
Qed.
End Runs.

(** ** Slices of the 16-byte mirror *)

Lemma getslice_range {A} (l : list A) (a n : Z) :
  0 ≤ a → 0 ≤ n → a + n ≤ Z.of_nat (length l) →
  getslice l a (a + n) = take (Z.to_nat n) (drop (Z.to_nat a) l).
Proof.
  intros Ha Hn Hl.
  rewrite <- (Z2Nat.id a) at 1 2 by done. rewrite <- (Z2Nat.id n) at 1 by done.
  apply getslice_in_range. lia.
Qed.

Lemma setslice_range {A} (l v : list A) (a n : Z) :
  0 ≤ a → 0 ≤ n → a + n ≤ Z.of_nat (length l) →
  setslice l a (a + n) v
  = take (Z.to_nat a) l ++ v ++ drop (Z.to_nat a + Z.to_nat n) l.
Proof.
  intros Ha Hn Hl.
  rewrite <- (Z2Nat.id a) at 1 2 by done. rewrite <- (Z2Nat.id n) at 1 by done.
  apply setslice_in_range. lia.
Qed.

(** The address byte: bit 7 tells a write from a read, the low bits are the
    register address. *)
Lemma address_byte (a : Z) :
  0 ≤ a ≤ 16 →
  Z.testbit (Z.lor a 0x80) 7 = true ∧ Z.land (Z.lor a 0x80) 0x7F = a
  ∧ Z.testbit a 7 = false.
Proof.
  intros Ha.
  pose proof (byte_cases
    (λ a, if a <=? 16
          then Z.testbit (Z.lor a 0x80) 7 && (Z.land (Z.lor a 0x80) 0x7F =? a)
               && negb (Z.testbit a 7)
          else true) ltac:(by vm_compute) a ltac:(lia)) as Hb.
  cbv beta in Hb. destruct (Z.leb_spec a 16); [|lia].
  apply andb_true_iff in Hb as [Hb H3]. apply andb_true_iff in Hb as [H1 H2].
  apply Z.eqb_eq in H2. apply negb_true_iff in H3. done.
Qed.

(** ** The bus protocol of the register mirror *)

Section Protocol.
Context {chip : Type} `{SpiDevice chip}.
Implicit Types (w : World chip).

Lemma read_regs_mirror w start_addr count :
  0 ≤ start_addr → 0 ≤ count → start_addr + count ≤ Z.of_nat (length (regs w)) →
  setslice (regs w) start_addr (start_addr + count)
           (drop 1 (read_rx w start_addr count))
  = take (Z.to_nat start_addr) (regs w)
    ++ drop 1 (read_rx w start_addr count)
    ++ drop (Z.to_nat start_addr + Z.to_nat count) (regs w)
  ∧ length (drop 1 (read_rx w start_addr count)) = Z.to_nat count.
Proof.
  intros Ha Hc Hl. split.
  - by apply setslice_range.
  - rewrite length_drop, read_rx_length by done. lia.
Qed.

(** C5: with [start_addr + count ≤ 16], [write_regs] is one transaction (select
    low, one write, select high) whose first byte is the address with bit
    0x80 set and whose other bytes are the [count] mirror bytes from
    [start_addr]; [read_regs] is one transaction of [count + 1] bytes whose
    first byte is the bare address, bit 0x80 clear, and the [count] bytes
    answered after the address byte become [regs[start_addr:start_addr+count]]. *)
Theorem write_read_transactions w (start_addr count : Z) :
  length (regs w) = 16%nat →
  0 ≤ start_addr → 0 ≤ count → start_addr + count ≤ 16 →
  (∃ w' payload,
      Max31856.write_regs start_addr count w = (Ok tt, w')
      ∧ log w' = log w ++ [CsValue 0;
                           SpiWrite (Z.lor start_addr 0x80 :: payload);
                           CsValue 1]
      ∧ Z.testbit (Z.lor start_addr 0x80) 7 = true
      ∧ Z.land (Z.lor start_addr 0x80) 0x7F = start_addr
      ∧ length payload = Z.to_nat count
      ∧ ∀ i : nat, (i < Z.to_nat count)%nat →
          payload !! i = regs w !! (Z.to_nat start_addr + i)%nat)
  ∧ (∃ w' rx,
      Max31856.read_regs start_addr count w = (Ok tt, w')
      ∧ log w' = log w ++ [CsValue 0;
                           SpiWriteReadinto
                             (start_addr :: replicate (Z.to_nat count) 0) rx;
                           CsValue 1]
      ∧ Z.testbit start_addr 7 = false
      ∧ length rx = S (Z.to_nat count)
      ∧ length (regs w') = 16%nat
      ∧ ∀ i : nat, (i < Z.to_nat count)%nat →
          regs w' !! (Z.to_nat start_addr + i)%nat = rx !! S i).
Proof.
  intros Hlen Ha Hc Hsum.
  destruct (address_byte start_addr) as (Hset & Hlow & Hclear); [lia|].
  split.
  - eexists _, (take (Z.to_nat count) (drop (Z.to_nat start_addr) (regs w))).
    rewrite write_regs_run by lia. split; [reflexivity|]. cbn [log].
    unfold write_buf. rewrite getslice_range by lia.
    split_and!; try done.
    + rewrite length_take, length_drop. lia.
    + intros i Hi. rewrite lookup_take_lt by done. by rewrite lookup_drop.
  - eexists _, (read_rx w start_addr count).
    rewrite read_regs_run by lia. split; [reflexivity|]. cbn [log regs].
    destruct (read_regs_mirror w start_addr count) as [-> Hd]; [lia..|].
    split_and!; try done.
    + by apply read_rx_length.
    + rewrite splice_length; [done|lia|done].
    + intros i Hi. rewrite splice_lookup_inside; [|lia|done|done].
      by rewrite lookup_drop.
Qed.

(** C7: with [start_addr + count ≤ 16], [write_regs] leaves the whole mirror
    as it was, and [read_regs] keeps its 16 bytes and changes none outside
    [start_addr, start_addr + count). *)
Theorem regs_frame w (start_addr count : Z) :
  length (regs w) = 16%nat →
  0 ≤ start_addr → 0 ≤ count → start_addr + count ≤ 16 →
  (∃ w', Max31856.write_regs start_addr count w = (Ok tt, w')
         ∧ regs w' = regs w)
  ∧ (∃ w', Max31856.read_regs start_addr count w = (Ok tt, w')
           ∧ length (regs w') = 16%nat
           ∧ ∀ i : nat, ¬ (start_addr ≤ Z.of_nat i < start_addr + count) →
               regs w' !! i = regs w !! i).
Proof.
  intros Hlen Ha Hc Hsum. split.
  - eexists. rewrite write_regs_run by lia. done.
  - eexists. rewrite read_regs_run by lia. split; [reflexivity|]. cbn [regs].
    destruct (read_regs_mirror w start_addr count) as [-> Hd]; [lia..|].
    split.
    + rewrite splice_length; [done|lia|done].
    + intros i Hi. apply splice_lookup_outside; [lia|done|lia].
Qed.

(** C8, as the code has it: [read_data] is one read transaction of the six
    registers from [CJTH_REG] (0x0A) up to and including the status register
    [SR_REG] (0x0F), one past [LTCBL_REG]; the first ten mirror bytes stay and
    the last six are replaced by the six bytes answered after the address. *)
Theorem read_data_span w :
  length (regs w) = 16%nat →
  ∃ w' rx,
    Max31856.read_data w = (Ok tt, w')
    ∧ log w' = log w ++ [CsValue 0;
                         SpiWriteReadinto [CJTH_REG; 0; 0; 0; 0; 0; 0] rx;
                         CsValue 1]
    ∧ length rx = 7%nat
    ∧ regs w' = take 10 (regs w) ++ drop 1 rx
    ∧ CJTH_REG + 6 - 1 = SR_REG ∧ SR_REG = LTCBL_REG + 1.
Proof.
  intros Hlen. eexists _, (read_rx w CJTH_REG 6).
  unfold Max31856.read_data. rewrite read_regs_run by done.
  split; [reflexivity|]. cbn [log regs].
  destruct (read_regs_mirror w CJTH_REG 6) as [-> Hd]; [by rewrite ?Hlen..|].
  split_and!; try done.
  - by apply read_rx_length.
  - rewrite (drop_ge (regs w)) by (rewrite Hlen; by vm_compute).
    by rewrite app_nil_r.
Qed.
End Protocol.

(** ** Items of a bytearray, entries of the type table *)

Lemma item_index_in_range {A} (r : list A) (i : Z) :
  0 ≤ i < Z.of_nat (length r) → item_index r i = Some (Z.to_nat i).
Proof.
  intros Hi. unfold item_index.
  destruct (Z.ltb_spec i 0); [lia|].
  destruct (Z.leb_spec 0 i); [|lia].
  destruct (Z.ltb_spec i (Z.of_nat (length r))); [done|lia].
Qed.

Lemma seqZ_cases2 (P : Z → Z → bool) (n m : Z) :
  forallb (λ b, forallb (P b) (seqZ 0 m)) (seqZ 0 n) = true →
  ∀ b c, 0 ≤ b < n → 0 ≤ c < m → P b c = true.
Proof.
  intros HP b c Hb Hc. rewrite forallb_forall in HP.
  assert (Hrow : forallb (P b) (seqZ 0 m) = true).
  { apply HP, list_elem_of_In, elem_of_seqZ. lia. }
  rewrite forallb_forall in Hrow. apply Hrow, list_elem_of_In, elem_of_seqZ. lia.
Qed.

(** Merging the averaging nibble of [cr1] with a type code: a byte whose low
    nibble is the code and whose high nibble is that of [cr1]. *)
Lemma cr1_merge (cr1 code : Z) :
  0 ≤ cr1 < 256 → 0 ≤ code < 16 →
  is_byte (Z.lor (Z.land cr1 0xF0) code) = true
  ∧ Z.land (Z.lor (Z.land cr1 0xF0) code) 0x0F = code
  ∧ Z.land (Z.lor (Z.land cr1 0xF0) code) 0xF0 = Z.land cr1 0xF0.
Proof.
  intros Hb Hc.
  pose proof (seqZ_cases2
    (λ b c, let m := Z.lor (Z.land b 0xF0) c in
            is_byte m && (Z.land m 0x0F =? c) && (Z.land m 0xF0 =? Z.land b 0xF0))
    256 16 ltac:(by vm_compute) cr1 code Hb Hc) as Hm.
  cbv beta zeta in Hm.
  apply andb_true_iff in Hm as [Hm H3]. apply andb_true_iff in Hm as [H1 H2].
  apply Z.eqb_eq in H2, H3. done.
Qed.

Lemma tctypes_items :
  tctypes = list_to_map
    [("B", 0); ("E", 1); ("J", 2); ("K", 3); ("N", 4); ("R", 5); ("S", 6);
     ("T", 7); ("VG8", 8); ("VG32", 12)]%string.
Proof. reflexivity. Qed.

Lemma tctypes_lookup (tc : string) (code : Z) :
  tctypes !! tc = Some code ↔
  (tc, code) ∈ [("B", 0); ("E", 1); ("J", 2); ("K", 3); ("N", 4); ("R", 5);
                ("S", 6); ("T", 7); ("VG8", 8); ("VG32", 12)]%string.
Proof.
  rewrite tctypes_items. symmetry. apply elem_of_list_to_map.
  apply (bool_decide_unpack _). by vm_compute.
Qed.

Lemma tctypes_code_nibble (tc : string) (code : Z) :
  tctypes !! tc = Some code → 0 ≤ code < 16.
Proof.
  rewrite tctypes_lookup. intros Hin.
  repeat (apply elem_of_cons in Hin as [[= -> ->]|Hin]; [lia|]).
  by apply elem_of_nil in Hin.
Qed.

Lemma tctypes_unknown (tc : string) :
  tc ∉ ["B"; "E"; "J"; "K"; "N"; "R"; "S"; "T"; "VG8"; "VG32"]%string →
  tctypes !! tc = None.
Proof.
  intros Hnot. apply eq_None_not_Some. intros [code Hc].
  apply tctypes_lookup in Hc. apply Hnot.
  repeat (apply elem_of_cons in Hc as [[= -> ->]|Hc]; [set_solver|]).
  by apply elem_of_nil in Hc.
Qed.

(** ** Construction *)

Section Construction.
Context {chip : Type} `{SpiDevice chip}.
Implicit Types (w : World chip).

(** The first read of [__init__] fills all 16 bytes of the fresh mirror. *)
Lemma power_on_read w1 :
  regs w1 = replicate 16 0 →
  length (drop 1 (read_rx w1 CR0_REG 16)) = 16%nat
  ∧ setslice (regs w1) CR0_REG (CR0_REG + 16) (drop 1 (read_rx w1 CR0_REG 16))
    = drop 1 (read_rx w1 CR0_REG 16).
Proof.
  intros ->. split.
  - rewrite length_drop, read_rx_length by done. lia.
  - rewrite (setslice_range _ _ 0 16); [|done|done|rewrite length_replicate; lia].
    change (Z.to_nat 0) with 0%nat.
    rewrite take_0, (drop_ge (replicate 16 0)); [|rewrite length_replicate; lia].
    by rewrite app_nil_r.
Qed.

(** Runs [__init__] up to the lookup of the thermocouple type. *)
Ltac run_init_to_lookup w tc Hcr0 m1 Hlen :=
  unfold Max31856.__init__; unfold_actions; simpl;
  rewrite read_regs_run by done; simpl;
  rewrite <- !app_assoc; simpl;
  change (Z.to_nat 16) with 16%nat;
  set (w1 := mkWorld tc (replicate 16 0) (cs_set (hw w) 1)
                     (log w ++ [CsValue 1; SpiInit 1000000 0 1]));
  destruct (power_on_read w1 eq_refl) as [Hlen Hset];
  cbn [regs w1] in Hset; rewrite Hset; clear Hset;
  set (m1 := drop 1 (read_rx w1 CR0_REG 16)) in *;
  rewrite item_index_in_range by (rewrite Hlen; done);
  rewrite (proj2 (is_byte_spec _) Hcr0); simpl.

(** C3, as the code raises it: for a type string outside the ten of
    [tctypes] (and a byte [cr0]), [__init__] fails at the lookup
    [tctypes[tc_type]] with Python's [KeyError] for the unknown key, after
    the power-on read alone: the bus saw the select line, the bus setup and
    one 17-byte read transaction, and no write transaction. *)
Theorem init_unknown_type w (tc : string) (cr0 cr1 : Z) :
  0 ≤ cr0 < 256 →
  tc ∉ ["B"; "E"; "J"; "K"; "N"; "R"; "S"; "T"; "VG8"; "VG32"]%string →
  ∃ w' rx,
    Max31856.__init__ tc cr0 cr1 w = (Raise (KeyError tc), w')
    ∧ log w' = log w ++ [CsValue 1; SpiInit 1000000 0 1; CsValue 0;
                         SpiWriteReadinto (CR0_REG :: replicate 16 0) rx;
                         CsValue 1]
    ∧ ∀ b, SpiWrite b ∈ log w' → SpiWrite b ∈ log w.
Proof.
  intros Hcr0 Hunknown.
  run_init_to_lookup w tc Hcr0 m1 Hlen.
  rewrite (tctypes_unknown tc Hunknown). simpl.
  eexists _, _. split; [reflexivity|]. cbn [log]. split; [done|].
  intros b Hb. apply elem_of_app in Hb as [Hb|Hb]; [done|].
  exfalso. repeat (apply elem_of_cons in Hb as [Hb|Hb]; [discriminate|]).
  by apply elem_of_nil in Hb.
Qed.

(** C6: for a byte [cr1] (and a byte [cr0]) and a type of [tctypes] with code
    [code], [__init__] stores [(cr1 & 0xF0) | code] into the mirror's CR1
    before pushing it: the mirror then holds [cr0], the merge and [0] at
    addresses 0, 1 and 2, and the one write transaction of the construction
    carries exactly these.  The low nibble of the merge is the code and its
    high nibble is that of [cr1]; averaging bits 0x40 with type K (code 3)
    give 0x43.  The read-back that ends the construction then replaces the
    three mirror bytes by what the chip answers. *)
Theorem init_cr1_merge w (tc : string) (code cr0 cr1 : Z) :
  0 ≤ cr0 < 256 → 0 ≤ cr1 < 256 → tctypes !! tc = Some code →
  ∃ w2 w' rx1 rx2,
    regs w2 !! 0%nat = Some cr0
    ∧ regs w2 !! 1%nat = Some (Z.lor (Z.land cr1 0xF0) code)
    ∧ regs w2 !! 2%nat = Some 0
    ∧ Max31856.__init__ tc cr0 cr1 w
      = (Max31856.write_regs CR0_REG 3 ≫= λ _, Max31856.read_regs CR0_REG 3) w2
    ∧ Max31856.__init__ tc cr0 cr1 w = (Ok tt, w')
    ∧ log w' = log w ++ [CsValue 1; SpiInit 1000000 0 1; CsValue 0;
                         SpiWriteReadinto (CR0_REG :: replicate 16 0) rx1;
                         CsValue 1; CsValue 0;
                         SpiWrite [0x80; cr0; Z.lor (Z.land cr1 0xF0) code; 0];
                         CsValue 1; CsValue 0;
                         SpiWriteReadinto [CR0_REG; 0; 0; 0] rx2;
                         CsValue 1]
    ∧ Z.land (Z.lor (Z.land cr1 0xF0) code) 0x0F = code
    ∧ Z.land (Z.lor (Z.land cr1 0xF0) code) 0xF0 = Z.land cr1 0xF0
    ∧ tctypes !! "K"%string = Some 3
    ∧ Z.lor (Z.land 0x40 0xF0) 3 = 0x43.
Proof.
  intros Hcr0 Hcr1 Hc.
  destruct (cr1_merge cr1 code) as (Hb & Hlo & Hhi);
    [done|by eapply tctypes_code_nibble|].
  run_init_to_lookup w tc Hcr0 m1 Hlen.
  rewrite Hc. simpl.
  rewrite item_index_in_range by (rewrite length_insert, Hlen; done).
  rewrite Hb. simpl.
  rewrite item_index_in_range by (rewrite !length_insert, Hlen; done).
  simpl.
  destruct m1 as [|b0 [|b1 [|b2 m1]]]; try done.
  change (Z.to_nat CR0_REG) with 0%nat. change (Z.to_nat CR1_REG) with 1%nat.
  change (Z.to_nat MASK_REG) with 2%nat. cbn [insert list_insert].
  eexists _, _, _, _. split_and!.
  4: by unfold mbind, M_bind.
  1-3: reflexivity.
  - rewrite write_regs_run by done. simpl.
    rewrite read_regs_run by done. simpl. reflexivity.
  - cbn [log]. unfold write_buf, read_tx. cbn [regs].
    rewrite (getslice_range _ 0 3); [|done|done|cbn [length]; lia].
    by rewrite <- !app_assoc.
  - done.
  - done.
  - apply tctypes_lookup, (bool_decide_unpack _). by vm_compute.
  - done.
Qed.
End Construction.

(** ** The one-shot trigger *)

(** Clearing the autoconversion bit and setting the one-shot bit of a byte. *)
Lemma one_shot_bits (x : Z) :
  0 ≤ x < 256 →
  is_byte (Z.land x (Z.lnot CR0_AUTOCONVERT)) = true
  ∧ is_byte (Z.lor (Z.land x (Z.lnot CR0_AUTOCONVERT)) CR0_ONESHOT) = true
  ∧ Z.testbit (Z.lor (Z.land x (Z.lnot CR0_AUTOCONVERT)) CR0_ONESHOT) 7 = false
  ∧ Z.testbit (Z.lor (Z.land x (Z.lnot CR0_AUTOCONVERT)) CR0_ONESHOT) 6 = true.
Proof.
  intros Hx.
  pose proof (byte_cases
    (λ x, let v := Z.land x (Z.lnot CR0_AUTOCONVERT) in
          is_byte v && is_byte (Z.lor v CR0_ONESHOT)
          && negb (Z.testbit (Z.lor v CR0_ONESHOT) 7)
          && Z.testbit (Z.lor v CR0_ONESHOT) 6)
    ltac:(by vm_compute) x Hx) as Hb.
  cbv beta zeta in Hb.
  apply andb_true_iff in Hb as [Hb H4]. apply andb_true_iff in Hb as [Hb H3].
  apply andb_true_iff in Hb as [H1 H2]. apply negb_true_iff in H3. done.
Qed.

Section OneShot.
Context {chip : Type} `{SpiDevice chip}.
Implicit Types (w : World chip).

(** C1, as the code runs: on a 16-byte mirror whose CR0 byte is [x],
    [one_shot] clears bit 0x80 and sets bit 0x40 of the mirror's CR0, writes
    that one byte in one write transaction, and then stops with [NameError]:
    the module never binds the name [time], so [time.sleep(200)] raises, no
    delay elapses and [read_data] is not called (the bus sees no read). *)
Theorem one_shot_raises_NameError w (x : Z) :
  length (regs w) = 16%nat → regs w !! 0%nat = Some x → 0 ≤ x < 256 →
  ∃ w',
    Max31856.one_shot w = (Raise (NameError "time"), w')
    ∧ regs w' = <[0%nat := Z.lor (Z.land x (Z.lnot CR0_AUTOCONVERT)) CR0_ONESHOT]>
                  (regs w)
    ∧ Z.testbit (Z.lor (Z.land x (Z.lnot CR0_AUTOCONVERT)) CR0_ONESHOT) 7 = false
    ∧ Z.testbit (Z.lor (Z.land x (Z.lnot CR0_AUTOCONVERT)) CR0_ONESHOT) 6 = true
    ∧ log w' = log w ++ [CsValue 0;
                         SpiWrite [0x80; Z.lor (Z.land x (Z.lnot CR0_AUTOCONVERT))
                                               CR0_ONESHOT];
                         CsValue 1].
Proof.
  intros Hlen Hx Hbyte.
  destruct (one_shot_bits x Hbyte) as (Hb1 & Hb2 & H7 & H6).
  unfold Max31856.one_shot. unfold_actions. simpl.
  rewrite !item_index_in_range by (rewrite ?length_insert, Hlen; done).
  change (Z.to_nat CR0_REG) with 0%nat.
  rewrite Hx. simpl. rewrite Hb1. simpl.
  rewrite !item_index_in_range by (rewrite ?length_insert, Hlen; done).
  change (Z.to_nat CR0_REG) with 0%nat.
  rewrite list_lookup_insert_eq by (rewrite Hlen; lia). simpl.
  rewrite Hb2. simpl. rewrite list_insert_insert_eq.
  rewrite write_regs_run by done. simpl.
  eexists. split; [reflexivity|]. cbn [regs log].
  split_and!; try done.
  unfold write_buf. cbn [regs].
  rewrite (getslice_range _ 0 1); [|done|done|rewrite length_insert, Hlen; lia].
  destruct (regs w) as [|r0 rs]; [done|]. done.
Qed.
End OneShot.

(** ** The decoders *)

Lemma be_unsigned_4 (b0 b1 b2 b3 : Z) :
  be_unsigned [b0; b1; b2; b3] = b0 * 2 ^ 24 + b1 * 2 ^ 16 + b2 * 2 ^ 8 + b3.
Proof. unfold be_unsigned. cbn [fold_left]. lia. Qed.

Lemma struct_unpack_i (b0 b1 b2 b3 : Z) :
  0 ≤ b0 < 256 → 0 ≤ b1 < 256 → 0 ≤ b2 < 256 → 0 ≤ b3 < 256 →
  struct_unpack_be 4 [b0; b1; b2; b3] = Ok (be_signed32 b0 b1 b2 b3).
Proof.
  intros H0 H1 H2 H3. unfold struct_unpack_be, be_signed32.
  rewrite decide_True by done. rewrite be_unsigned_4. f_equal.
  change (2 ^ (8 * Z.of_nat 4 - 1)) with 2147483648.
  change (2 ^ (8 * Z.of_nat 4)) with 4294967296.
  change (2 ^ 32) with 4294967296.
  destruct (Z.leb_spec 128 b0), (Z.ltb_spec (b0 * 2 ^ 24 + b1 * 2 ^ 16 + b2 * 2 ^ 8 + b3)
                                            2147483648); lia.
Qed.

Lemma struct_unpack_h (hi lo : Z) :
  0 ≤ hi < 256 → 0 ≤ lo < 256 →
  struct_unpack_be 2 [hi; lo] = Ok (be_signed16 hi lo).
Proof.
  intros H0 H1. unfold struct_unpack_be, be_signed16.
  rewrite decide_True by done. unfold be_unsigned. cbn [fold_left]. f_equal.
  change (2 ^ (8 * Z.of_nat 2 - 1)) with 32768.
  change (2 ^ (8 * Z.of_nat 2)) with 65536.
  change (2 ^ 16) with 65536.
  destruct (Z.leb_spec 128 hi), (Z.ltb_spec ((0 * 256 + hi) * 256 + lo) 32768); lia.
Qed.

Lemma be_signed32_range (b0 b1 b2 b3 : Z) :
  0 ≤ b0 < 256 → 0 ≤ b1 < 256 → 0 ≤ b2 < 256 → 0 ≤ b3 < 256 →
  - 2 ^ 31 ≤ be_signed32 b0 b1 b2 b3 < 2 ^ 31
  ∧ Z.land (be_signed32 b0 b1 b2 b3) 0xFF = b3.
Proof.
  intros H0 H1 H2 H3. split.
  - unfold be_signed32. destruct (Z.leb_spec 128 b0); lia.
  - change 0xFF with (Z.ones 8). rewrite Z.land_ones by done.
    unfold be_signed32. change (2 ^ 8) with 256.
    destruct (Z.leb_spec 128 b0).
    + symmetry. apply (Z.mod_unique_pos _ _ (b0 * 2 ^ 16 + b1 * 2 ^ 8 + b2 - 2 ^ 24)); lia.
    + symmetry. apply (Z.mod_unique_pos _ _ (b0 * 2 ^ 16 + b1 * 2 ^ 8 + b2)); lia.
Qed.

Lemma getslice_4 (r : list Z) (a : nat) (b0 b1 b2 b3 : Z) :
  r !! a = Some b0 → r !! S a = Some b1 → r !! S (S a) = Some b2 →
  r !! S (S (S a)) = Some b3 →
  getslice r (Z.of_nat a) (Z.of_nat a + 4) = [b0; b1; b2; b3].
Proof.
  intros H0 H1 H2 H3. pose proof (lookup_lt_Some _ _ _ H3) as Hlt.
  rewrite getslice_range by lia. rewrite Nat2Z.id.
  rewrite (drop_S _ _ _ H0), (drop_S _ _ _ H1), (drop_S _ _ _ H2), (drop_S _ _ _ H3).
  reflexivity.
Qed.

Lemma getslice_2 (r : list Z) (a : nat) (b0 b1 : Z) :
  r !! a = Some b0 → r !! S a = Some b1 →
  getslice r (Z.of_nat a) (Z.of_nat a + 2) = [b0; b1].
Proof.
  intros H0 H1. pose proof (lookup_lt_Some _ _ _ H1) as Hlt.
  rewrite getslice_range by lia. rewrite Nat2Z.id.
  rewrite (drop_S _ _ _ H0), (drop_S _ _ _ H1).
  reflexivity.
Qed.

Section Decoders.
Context {chip : Type} `{SpiDevice chip}.
Implicit Types (w : World chip).

(** Without a refresh, [temperature] is a function of the four mirror bytes
    at 0x0C..0x0F alone and leaves the driver as it was. *)
Lemma temperature_run w (b0 b1 b2 b3 : Z) :
  regs w !! 12%nat = Some b0 → regs w !! 13%nat = Some b1 →
  regs w !! 14%nat = Some b2 → regs w !! 15%nat = Some b3 →
  0 ≤ b0 < 256 → 0 ≤ b1 < 256 → 0 ≤ b2 < 256 → 0 ≤ b3 < 256 →
  Max31856.temperature false w
  = (Ok (PrimFloat.mul (float_of_int (be_signed32 b0 b1 b2 b3))
                       9.53674316406e-7%float), w).
Proof.
  intros L0 L1 L2 L3 H0 H1 H2 H3.
  unfold Max31856.temperature. unfold_actions. simpl.
  change LTCBH_REG with (Z.of_nat 12).
  rewrite (getslice_4 (regs w) 12 b0 b1 b2 b3) by done.
  rewrite struct_unpack_i by done. by destruct w.
Qed.

Lemma cold_junction_run w (hi lo : Z) :
  regs w !! 10%nat = Some hi → regs w !! 11%nat = Some lo →
  0 ≤ hi < 256 → 0 ≤ lo < 256 →
  Max31856.cold_junction false w
  = (Ok (PrimFloat.mul (float_of_int (be_signed16 hi lo))
                       (PrimFloat.div (float_of_int 1) 256%float)), w).
Proof.
  intros L0 L1 H0 H1.
  unfold Max31856.cold_junction. unfold_actions. simpl.
  change (CJTL_REG + 1) with (Z.of_nat 10 + 2).
  change CJTH_REG with (Z.of_nat 10).
  rewrite (getslice_2 (regs w) 10 hi lo) by done.
  rewrite struct_unpack_h by done. by destruct w.
Qed.
(** C2, as the code computes it: [temperature] reads the mirror bytes at
    0x0C..0x0F as a big-endian signed 32-bit integer and multiplies it by
    9.53674316406e-7.  Bytes 00 01 86 A0 decode to 100000 and give 0.09537
    to within 0.00001; bytes FF FE 79 60 decode to -100000 and give -0.09537
    to within 0.00001. *)
Theorem temperature_decode w (b0 b1 b2 b3 : Z) :
  regs w !! 12%nat = Some b0 → regs w !! 13%nat = Some b1 →
  regs w !! 14%nat = Some b2 → regs w !! 15%nat = Some b3 →
  0 ≤ b0 < 256 → 0 ≤ b1 < 256 → 0 ≤ b2 < 256 → 0 ≤ b3 < 256 →
  Max31856.temperature false w
  = (Ok (PrimFloat.mul (float_of_int (be_signed32 b0 b1 b2 b3))
                       9.53674316406e-7%float), w)
  ∧ (b0 = 0x00 → b1 = 0x01 → b2 = 0x86 → b3 = 0xA0 →
     be_signed32 b0 b1 b2 b3 = 100000
     ∧ ∃ t, Max31856.temperature false w = (Ok t, w)
            ∧ PrimFloat.ltb (PrimFloat.abs (PrimFloat.sub t 0.09537%float))
                            0.00001%float = true)
  ∧ (b0 = 0xFF → b1 = 0xFE → b2 = 0x79 → b3 = 0x60 →
     be_signed32 b0 b1 b2 b3 = -100000
     ∧ ∃ t, Max31856.temperature false w = (Ok t, w)
            ∧ PrimFloat.ltb (PrimFloat.abs (PrimFloat.sub t (-0.09537)%float))
                            0.00001%float = true).
Proof.
  intros L0 L1 L2 L3 H0 H1 H2 H3.
  rewrite (temperature_run w b0 b1 b2 b3) by done.
  split_and!; [done| |]; intros -> -> -> ->; (split; [done|]);
    eexists; (split; [reflexivity|]); by vm_compute.
Qed.

(** Multiplying a 16-bit integer by [1 / 256.0] is exact: scaling the product
    back by 256 returns the integer. *)
Lemma cold_junction_scale_exact (hi lo : Z) :
  0 ≤ hi < 256 → 0 ≤ lo < 256 →
  PrimFloat.eqb
    (PrimFloat.mul
       (PrimFloat.mul (float_of_int (be_signed16 hi lo))
                      (PrimFloat.div (float_of_int 1) 256%float))
       256%float)
    (float_of_int (be_signed16 hi lo)) = true.
Proof.
  intros Hhi Hlo.
  exact (seqZ_cases2
    (λ hi lo, PrimFloat.eqb
       (PrimFloat.mul
          (PrimFloat.mul (float_of_int (be_signed16 hi lo))
                         (PrimFloat.div (float_of_int 1) 256%float))
          256%float)
       (float_of_int (be_signed16 hi lo)))
    256 256 ltac:(vm_compute; reflexivity) hi lo Hhi Hlo).
Qed.

(** C9: [cold_junction] reads the mirror bytes at 0x0A and 0x0B as a
    big-endian signed 16-bit integer and multiplies it by [1 / 256.0], which
    is the float 0.00390625 and loses nothing; bytes 19 00 decode to 6400 and
    give exactly 25.0, bytes F7 00 decode to -2304 and give exactly -9.0. *)
Theorem cold_junction_decode w (hi lo : Z) :
  regs w !! 10%nat = Some hi → regs w !! 11%nat = Some lo →
  0 ≤ hi < 256 → 0 ≤ lo < 256 →
  Max31856.cold_junction false w
  = (Ok (PrimFloat.mul (float_of_int (be_signed16 hi lo))
                       (PrimFloat.div (float_of_int 1) 256%float)), w)
  ∧ PrimFloat.div (float_of_int 1) 256%float = 0.00390625%float
  ∧ PrimFloat.eqb
      (PrimFloat.mul
         (PrimFloat.mul (float_of_int (be_signed16 hi lo))
                        (PrimFloat.div (float_of_int 1) 256%float))
         256%float)
      (float_of_int (be_signed16 hi lo)) = true
  ∧ (hi = 0x19 → lo = 0x00 →
     be_signed16 hi lo = 6400
     ∧ Max31856.cold_junction false w = (Ok 25%float, w))
  ∧ (hi = 0xF7 → lo = 0x00 →
     be_signed16 hi lo = -2304
     ∧ Max31856.cold_junction false w = (Ok (-9)%float, w)).
Proof.
  intros L0 L1 H0 H1.
  rewrite (cold_junction_run w hi lo) by done.
  split_and!; [done|by vm_compute|by apply cold_junction_scale_exact| |];
    intros -> ->; (split; [done|]); f_equal; f_equal; by vm_compute.
Qed.

(** C10: without a refresh, [temperature] decodes the mirror bytes at
    0x0C..0x0F, so the status byte at 0x0F is the low byte of the decoded
    integer: replacing the status byte [s] by [s'] moves the decoded integer
    by [s - s'], at most 255 either way, and the temperature is that integer
    times 9.53674316406e-7.  On an otherwise zero block, status 0x00 and
    status 0xFF give temperatures that differ by 255 × 9.53674316406e-7. *)
Theorem status_byte_in_temperature w (b0 b1 b2 s s' : Z) :
  regs w !! 12%nat = Some b0 → regs w !! 13%nat = Some b1 →
  regs w !! 14%nat = Some b2 → regs w !! 15%nat = Some s →
  0 ≤ b0 < 256 → 0 ≤ b1 < 256 → 0 ≤ b2 < 256 → 0 ≤ s < 256 → 0 ≤ s' < 256 →
  let w' := mkWorld (tc_type w) (<[15%nat := s']> (regs w)) (hw w) (log w) in
  ∃ t t',
    t = be_signed32 b0 b1 b2 s ∧ t' = be_signed32 b0 b1 b2 s'
    ∧ Max31856.temperature false w
      = (Ok (PrimFloat.mul (float_of_int t) 9.53674316406e-7%float), w)
    ∧ Max31856.temperature false w'
      = (Ok (PrimFloat.mul (float_of_int t') 9.53674316406e-7%float), w')
    ∧ Z.land t 0xFF = s ∧ Z.land t' 0xFF = s'
    ∧ t - t' = s - s' ∧ Z.abs (t - t') ≤ 255
    ∧ (b0 = 0 → b1 = 0 → b2 = 0 → s = 0 → s' = 0xFF →
       PrimFloat.sub (PrimFloat.mul (float_of_int t') 9.53674316406e-7%float)
                     (PrimFloat.mul (float_of_int t) 9.53674316406e-7%float)
       = PrimFloat.mul 255%float 9.53674316406e-7%float).
Proof.
  intros L0 L1 L2 L3 H0 H1 H2 H3 H3' w'.
  pose proof (lookup_lt_Some _ _ _ L3) as Hlt.
  eexists _, _. split; [reflexivity|]. split; [reflexivity|].
  split; [by apply temperature_run|].
  split.
  { apply temperature_run; try done; subst w'; cbn [regs].
    - by rewrite list_lookup_insert_ne.
    - by rewrite list_lookup_insert_ne.
    - by rewrite list_lookup_insert_ne.
    - by rewrite list_lookup_insert_eq. }
  split; [by apply be_signed32_range|]. split; [by apply be_signed32_range|].
  split_and!.
  - unfold be_signed32. destruct (Z.leb_spec 128 b0); lia.
  - unfold be_signed32. destruct (Z.leb_spec 128 b0); lia.
  - intros -> -> -> -> ->. by vm_compute.
Qed.
End Decoders.

(** ** The fault decoder *)

(** The loop of [faults] over the table: the descriptions of the bits set,
    in table order. *)
Lemma faults_loop (f : Z) :
  0 ≤ f < 256 →
  fold_left (λ fl '(bit, desc), if Z.land f bit =? 0 then fl else fl ++ [desc])
            faults []
  = active_faults f.
Proof.
  intros Hf.
  pose proof (byte_cases
    (λ f, bool_decide
       (fold_left
          (λ fl '(bit, desc), if Z.land f bit =? 0 then fl else fl ++ [desc])
          faults []
        = active_faults f))
    ltac:(by vm_compute) f Hf) as Hb.
  cbv beta in Hb. by apply bool_decide_eq_true in Hb.
Qed.

(** A description is reported exactly when its bit is set. *)
Lemma active_faults_bit (f k : Z) :
  0 ≤ f < 256 → 0 ≤ k < 8 →
  fault_description k ∈ active_faults f ↔ Z.testbit f k = true.
Proof.
  intros Hf Hk.
  pose proof (seqZ_cases2
    (λ f k, bool_decide
       (bool_decide (fault_description k ∈ active_faults f) = Z.testbit f k))
    256 8 ltac:(by vm_compute) f k Hf Hk) as Hb.
  cbv beta in Hb. apply bool_decide_eq_true in Hb.
  rewrite <- Hb. by rewrite bool_decide_eq_true.
Qed.

Section Faults.
Context {chip : Type} `{SpiDevice chip}.
Implicit Types (w : World chip).

#[local] Arguments fold_left : simpl never.

(** C4: with status byte [f] in the mirror, [faults] touches nothing and
    returns [(0, "")] when [f] is zero, and otherwise [f] with the
    descriptions of the bits set in [f], from bit 0 up to bit 7, joined by
    ["+"]: the description of each of the eight bits is among them exactly
    when the bit is set.  Status 0x11 gives [(17, "open+cjlow")]. *)
Theorem faults_decode w (f : Z) :
  regs w !! 15%nat = Some f → 0 ≤ f < 256 →
  Max31856.faults false w
  = (Ok (if f =? 0 then (0, ""%string)
         else (f, String.concat "+" (active_faults f))), w)
  ∧ (∀ k, 0 ≤ k < 8 →
       fault_description k ∈ active_faults f ↔ Z.testbit f k = true)
  ∧ (f = 0x11 →
     active_faults f = ["open"; "cjlow"]%string
     ∧ Max31856.faults false w = (Ok (17, "open+cjlow"%string), w)).
Proof.
  intros Lf Hf.
  assert (Hrun : Max31856.faults false w
    = (Ok (if f =? 0 then (0, ""%string)
           else (f, String.concat "+" (active_faults f))), w)).
  { pose proof (lookup_lt_Some _ _ _ Lf) as Hlt.
    unfold Max31856.faults. unfold_actions. simpl.
    rewrite item_index_in_range by (unfold SR_REG; lia).
    change (Z.to_nat SR_REG) with 15%nat. rewrite Lf. simpl.
    destruct (Z.eqb_spec f 0) as [->|Hne]; [by destruct w|].
    rewrite faults_loop by done. by destruct w. }
  split_and!; [done| |].
  - intros k Hk. by apply active_faults_bit.
  - intros ->. split; [by vm_compute|]. by rewrite Hrun.
Qed.
End Faults.

(** ** The theorems at work on the two chips *)

Lemma one_shot_raises_NameError_witness :
  (length (regs (world0 0 (<[0%nat := 0x93]> mirror0))) = 16%nat
   ∧ regs (world0 0 (<[0%nat := 0x93]> mirror0)) !! 0%nat = Some 0x93
   ∧ 0 ≤ 0x93 < 256)
  ∧ ∃ w',
      Max31856.one_shot (world0 0 (<[0%nat := 0x93]> mirror0))
      = (Raise (NameError "time"), w')
      ∧ regs w' = <[0%nat := 0x53]> (<[0%nat := 0x93]> mirror0)
      ∧ Z.testbit 0x53 7 = false
      ∧ Z.testbit 0x53 6 = true
      ∧ log w' = [CsValue 0; SpiWrite [0x80; 0x53]; CsValue 1].
Proof.
  split; [split_and!; reflexivity || lia|].
  apply (one_shot_raises_NameError (world0 0 (<[0%nat := 0x93]> mirror0)) 0x93);
    [reflexivity|reflexivity|lia].
Defined.

Lemma temperature_decode_witness :
  (regs (world0 0 mirror_tc_pos) !! 12%nat = Some 0x00
   ∧ regs (world0 0 mirror_tc_pos) !! 13%nat = Some 0x01
   ∧ regs (world0 0 mirror_tc_pos) !! 14%nat = Some 0x86
   ∧ regs (world0 0 mirror_tc_pos) !! 15%nat = Some 0xA0)
  ∧ ∃ t, Max31856.temperature false (world0 0 mirror_tc_pos)
         = (Ok t, world0 0 mirror_tc_pos)
         ∧ PrimFloat.ltb (PrimFloat.abs (PrimFloat.sub t 0.09537%float))
                         0.00001%float = true.
Proof.
  split; [by split_and!|].
  apply (temperature_decode (world0 0 mirror_tc_pos) 0x00 0x01 0x86 0xA0);
    reflexivity || lia.
Defined.

(** C2, against the claim as stated: decoding [0x000186A0] does not come
    within 0.01 of 95.37. *)
Lemma temperature_100000_is_not_95 :
  ¬ ∃ t w', Max31856.temperature false (world0 0 mirror_tc_pos) = (Ok t, w')
            ∧ PrimFloat.ltb (PrimFloat.abs (PrimFloat.sub t 95.37%float))
                            0.01%float = true.
Proof.
  intros (t & w' & Ht & Hlt). vm_compute in Ht.
  injection Ht as <- _. vm_compute in Hlt. discriminate.
Qed.

Lemma init_unknown_type_witness :
  (0 ≤ CR0_DEFAULT < 256
   ∧ "X"%string ∉ ["B"; "E"; "J"; "K"; "N"; "R"; "S"; "T"; "VG8"; "VG32"]%string)
  ∧ ∃ w' rx,
      Max31856.__init__ "X" CR0_DEFAULT CR1_DEFAULT (world0 0 [])
      = (Raise (KeyError "X"), w')
      ∧ log w' = [CsValue 1; SpiInit 1000000 0 1; CsValue 0;
                  SpiWriteReadinto (CR0_REG :: replicate 16 0) rx;
                  CsValue 1]
      ∧ ∀ b, SpiWrite b ∈ log w' → SpiWrite b ∈ [].
Proof.
  assert (Hx : "X"%string
               ∉ ["B"; "E"; "J"; "K"; "N"; "R"; "S"; "T"; "VG8"; "VG32"]%string).
  { apply (bool_decide_unpack _). by vm_compute. }
  split; [split; [by vm_compute|done]|].
  apply (init_unknown_type (world0 0 []) "X" CR0_DEFAULT CR1_DEFAULT);
    [by vm_compute|done].
Defined.

(** C3, against the claim as stated: what the construction raises for the
    unknown type ["X"] is not of a class named InvalidThermocoupleType; the
    module defines no such class. *)
Lemma init_unknown_type_error_class :
  ¬ ∃ e w',
      Max31856.__init__ "X" CR0_DEFAULT CR1_DEFAULT (world0 0 []) = (Raise e, w')
      ∧ exn_class e = "InvalidThermocoupleType"%string.
Proof.
  intros (e & w' & He & Hclass). vm_compute in He.
  injection He as <- _. discriminate.
Qed.

Lemma faults_decode_witness :
  (regs (world0 0 (<[15%nat := 0x11]> mirror0)) !! 15%nat = Some 0x11
   ∧ 0 ≤ 0x11 < 256)
  ∧ Max31856.faults false (world0 0 (<[15%nat := 0x11]> mirror0))
    = (Ok (17, "open+cjlow"%string), world0 0 (<[15%nat := 0x11]> mirror0)).
Proof.
  split; [split; [reflexivity|lia]|].
  apply (faults_decode (world0 0 (<[15%nat := 0x11]> mirror0)) 0x11);
    reflexivity || lia.
Defined.

Lemma write_read_transactions_witness :
  (length (regs (world0 0 mirror0)) = 16%nat ∧ 0 ≤ 10 ∧ 0 ≤ 6 ∧ 10 + 6 ≤ 16)
  ∧ ∃ w' rx,
      Max31856.read_regs 10 6 (world0 0 mirror0) = (Ok tt, w')
      ∧ log w' = log (world0 0 mirror0)
                 ++ [CsValue 0;
                     SpiWriteReadinto (10 :: replicate (Z.to_nat 6) 0) rx;
                     CsValue 1]
      ∧ Z.testbit 10 7 = false
      ∧ length rx = S (Z.to_nat 6)
      ∧ length (regs w') = 16%nat
      ∧ ∀ i : nat, (i < Z.to_nat 6)%nat →
          regs w' !! (Z.to_nat 10 + i)%nat = rx !! S i.
Proof.
  split; [split_and!; reflexivity || lia|].
  apply (write_read_transactions (world0 0 mirror0) 10 6); reflexivity || lia.
Defined.

Lemma init_cr1_merge_witness :
  (0 ≤ CR0_DEFAULT < 256 ∧ 0 ≤ CR1_DEFAULT < 256
   ∧ tctypes !! "K"%string = Some 3)
  ∧ ∃ w2 w' rx1 rx2,
      regs w2 !! 0%nat = Some CR0_DEFAULT
      ∧ regs w2 !! 1%nat = Some (Z.lor (Z.land CR1_DEFAULT 0xF0) 3)
      ∧ regs w2 !! 2%nat = Some 0
      ∧ Max31856.__init__ "K" CR0_DEFAULT CR1_DEFAULT (world0 0 [])
        = (Max31856.write_regs CR0_REG 3 ≫= λ _, Max31856.read_regs CR0_REG 3) w2
      ∧ Max31856.__init__ "K" CR0_DEFAULT CR1_DEFAULT (world0 0 []) = (Ok tt, w')
      ∧ log w' = log (world0 0 [])
                 ++ [CsValue 1; SpiInit 1000000 0 1; CsValue 0;
                     SpiWriteReadinto (CR0_REG :: replicate 16 0) rx1;
                     CsValue 1; CsValue 0;
                     SpiWrite [0x80; CR0_DEFAULT;
                               Z.lor (Z.land CR1_DEFAULT 0xF0) 3; 0];
                     CsValue 1; CsValue 0;
                     SpiWriteReadinto [CR0_REG; 0; 0; 0] rx2;
                     CsValue 1]
      ∧ Z.land (Z.lor (Z.land CR1_DEFAULT 0xF0) 3) 0x0F = 3
      ∧ Z.land (Z.lor (Z.land CR1_DEFAULT 0xF0) 3) 0xF0 = Z.land CR1_DEFAULT 0xF0
      ∧ tctypes !! "K"%string = Some 3
      ∧ Z.lor (Z.land 0x40 0xF0) 3 = 0x43.
Proof.
  assert (HK : tctypes !! "K"%string = Some 3).
  { apply tctypes_lookup, (bool_decide_unpack _). by vm_compute. }
  split; [split_and!; done || by vm_compute|].
  apply (init_cr1_merge (world0 0 []) "K" 3 CR0_DEFAULT CR1_DEFAULT);
    [by vm_compute|by vm_compute|done].
Defined.

Lemma regs_frame_witness :
  (length (regs (world0 0 mirror0)) = 16%nat ∧ 0 ≤ 10 ∧ 0 ≤ 6 ∧ 10 + 6 ≤ 16)
  ∧ (∃ w', Max31856.write_regs 10 6 (world0 0 mirror0) = (Ok tt, w')
           ∧ regs w' = regs (world0 0 mirror0))
  ∧ (∃ w', Max31856.read_regs 10 6 (world0 0 mirror0) = (Ok tt, w')
           ∧ length (regs w') = 16%nat
           ∧ ∀ i : nat, ¬ (10 ≤ Z.of_nat i < 10 + 6) →
               regs w' !! i = regs (world0 0 mirror0) !! i).
Proof.
  split; [split_and!; reflexivity || lia|].
  apply (regs_frame (world0 0 mirror0) 10 6); reflexivity || lia.
Defined.

Lemma read_data_span_witness :
  length (regs (world0 tt mirror0)) = 16%nat
  ∧ ∃ w' rx,
      Max31856.read_data (world0 tt mirror0) = (Ok tt, w')
      ∧ log w' = log (world0 tt mirror0)
                 ++ [CsValue 0;
                     SpiWriteReadinto [CJTH_REG; 0; 0; 0; 0; 0; 0] rx;
                     CsValue 1]
      ∧ length rx = 7%nat
      ∧ regs w' = take 10 (regs (world0 tt mirror0)) ++ drop 1 rx
      ∧ CJTH_REG + 6 - 1 = SR_REG ∧ SR_REG = LTCBL_REG + 1.
Proof.
  split; [reflexivity|].
  apply (read_data_span (world0 tt mirror0)). reflexivity.
Defined.

(** C8, against the claim as stated: on the floating bus, [read_data]
    changes the status byte at 0x0F, which lies outside the registers from
    [CJTH_REG] through [LTCBL_REG]. *)
Lemma read_data_reaches_status_register :
  ¬ ∀ i : nat, ¬ (CJTH_REG ≤ Z.of_nat i ≤ LTCBL_REG) →
      regs (Max31856.read_data (world0 tt mirror0)).2 !! i = mirror0 !! i.
Proof.
  intros Hspan. specialize (Hspan 15%nat).
  assert (Hout : ¬ (CJTH_REG ≤ Z.of_nat 15 ≤ LTCBL_REG)).
  { unfold CJTH_REG, LTCBL_REG. lia. }
  specialize (Hspan Hout). vm_compute in Hspan. discriminate.
Qed.

Lemma cold_junction_decode_witness :
  (regs (world0 0 mirror_cj_neg) !! 10%nat = Some 0xF7
   ∧ regs (world0 0 mirror_cj_neg) !! 11%nat = Some 0x00)
  ∧ Max31856.cold_junction false (world0 0 mirror_cj_neg)
    = (Ok (-9)%float, world0 0 mirror_cj_neg).
Proof.
  split; [by split|].
  apply (cold_junction_decode (world0 0 mirror_cj_neg) 0xF7 0x00);
    reflexivity || lia.
Defined.

Lemma status_byte_in_temperature_witness :
  (regs (world0 0 mirror0) !! 12%nat = Some 0
   ∧ regs (world0 0 mirror0) !! 15%nat = Some 0)
  ∧ ∃ t t',
      t = be_signed32 0 0 0 0 ∧ t' = be_signed32 0 0 0 0xFF
      ∧ Max31856.temperature false (world0 0 mirror0)
        = (Ok (PrimFloat.mul (float_of_int t) 9.53674316406e-7%float),
           world0 0 mirror0)
      ∧ Max31856.temperature false (world0 0 (<[15%nat := 0xFF]> mirror0))
        = (Ok (PrimFloat.mul (float_of_int t') 9.53674316406e-7%float),
           world0 0 (<[15%nat := 0xFF]> mirror0))
      ∧ Z.land t 0xFF = 0 ∧ Z.land t' 0xFF = 0xFF
      ∧ t - t' = 0 - 0xFF ∧ Z.abs (t - t') ≤ 255
      ∧ (0 = 0 → 0 = 0 → 0 = 0 → 0 = 0 → 0xFF = 0xFF →
         PrimFloat.sub (PrimFloat.mul (float_of_int t') 9.53674316406e-7%float)
                       (PrimFloat.mul (float_of_int t) 9.53674316406e-7%float)
         = PrimFloat.mul 255%float 9.53674316406e-7%float).
Proof.
  split; [by split|].
  apply (status_byte_in_temperature (world0 0 mirror0) 0 0 0 0 0xFF);
    reflexivity || lia.
Defined.

(** * Beyond the claims: edges, invariants and how the methods compose *)

(** ** Transactions that run past the end of the mirror, or fail *)

Lemma adjust_index_past_end len i : 0 ≤ len ≤ i → adjust_index len i = len.
Proof.
  intros Hi. unfold adjust_index.
  destruct (Z.ltb_spec i 0); lia.
Qed.

Lemma getslice_past_end {A} (l : list A) (a b : Z) :
  0 ≤ a ≤ Z.of_nat (length l) → Z.of_nat (length l) ≤ b →
  getslice l a b = drop (Z.to_nat a) l.
Proof.
  intros Ha Hb. unfold getslice.
  rewrite (adjust_index_in_range _ a), (adjust_index_past_end _ b) by lia.
  apply take_ge. rewrite length_drop. lia.
Qed.


Section Edges.
Context {chip : Type} `{SpiDevice chip}.
Implicit Types (w : World chip).



(** X3: a write that starts inside a 16-byte mirror and runs past its end is
    not refused either: it sends the address byte and only the
    [16 - start_addr] mirror bytes there are, fewer than [count] asks for. *)
Theorem write_regs_past_end_sends_less w (start_addr count : Z) :
  length (regs w) = 16%nat →
  0 ≤ start_addr ≤ 16 → 16 ≤ start_addr + count →
  ∃ w', Max31856.write_regs start_addr count w = (Ok tt, w')
        ∧ regs w' = regs w
        ∧ log w' = log w ++ [CsValue 0;
                             SpiWrite (Z.lor start_addr 0x80
                                       :: drop (Z.to_nat start_addr) (regs w));
                             CsValue 1]
        ∧ length (drop (Z.to_nat start_addr) (regs w))
          = Z.to_nat (16 - start_addr).
Proof.
  intros Hlen Ha Hend. eexists.
  rewrite write_regs_run by lia. split; [reflexivity|]. cbn [regs log].
  unfold write_buf. rewrite getslice_past_end by lia.
  split_and!; [done|done|]. rewrite length_drop. lia.
Qed.
End Edges.

(** ** What a finished construction leaves in the mirror *)

Section Constructed.
Context {chip : Type} `{SpiDevice chip}.
Implicit Types (w : World chip).

(** The state in which [__init__] starts its power-on read. *)
Lemma init_run w (tc : string) (code cr0 cr1 : Z) :
  0 ≤ cr0 < 256 → 0 ≤ cr1 < 256 → tctypes !! tc = Some code →
  let w1 := mkWorld tc (replicate 16 0) (cs_set (hw w) 1)
                    (log w ++ [CsValue 1; SpiInit 1000000 0 1]) in
  let m1 := drop 1 (read_rx w1 CR0_REG 16) in
  let w2 := mkWorld tc
              (<[2%nat := 0]> (<[1%nat := Z.lor (Z.land cr1 0xF0) code]>
                 (<[0%nat := cr0]> m1)))
              (cs_set (spi_transfer (cs_set (hw w1) 0) (read_tx CR0_REG 16)).1 1)
              (log w1 ++ [CsValue 0;
                          SpiWriteReadinto (read_tx CR0_REG 16)
                                           (read_rx w1 CR0_REG 16);
                          CsValue 1]) in
  length m1 = 16%nat
  ∧ Max31856.__init__ tc cr0 cr1 w
    = (Max31856.write_regs CR0_REG 3 ≫= λ _, Max31856.read_regs CR0_REG 3) w2.
Proof.
  intros Hcr0 Hcr1 Hc w1 m1 w2.
  destruct (cr1_merge cr1 code) as (Hb & _ & _);
    [done|by eapply tctypes_code_nibble|].
  destruct (power_on_read w1 eq_refl) as [Hlen Hset].
  fold m1 in Hlen, Hset. split; [done|].
  unfold Max31856.__init__. unfold_actions. simpl.
  rewrite read_regs_run by done. simpl.
  rewrite <- !app_assoc. simpl.
  change (Z.to_nat 16) with 16%nat. fold w1. fold m1.
  change (regs w1) with (replicate 16 0) in Hset. rewrite Hset.
  rewrite item_index_in_range by (rewrite Hlen; done).
  rewrite (proj2 (is_byte_spec _) Hcr0). simpl.
  rewrite Hc. simpl.
  rewrite item_index_in_range by (rewrite length_insert, Hlen; done).
  rewrite Hb. simpl.
  rewrite item_index_in_range by (rewrite !length_insert, Hlen; done).
  simpl. subst w2. cbn [hw log w1].
  rewrite <- !app_assoc. reflexivity.
Qed.

(** X4: for each of the ten thermocouple types (and bytes [cr0], [cr1]) the
    construction succeeds, remembers the type and leaves a 16-byte mirror;
    but the mirror's first three bytes are then whatever the chip answered to
    the closing read-back, not the configuration that was written, and the
    other thirteen are those of the power-on read. *)
Theorem init_leaves_readback w (tc : string) (cr0 cr1 : Z) :
  tc ∈ ["B"; "E"; "J"; "K"; "N"; "R"; "S"; "T"; "VG8"; "VG32"]%string →
  0 ≤ cr0 < 256 → 0 ≤ cr1 < 256 →
  ∃ w' code rx1 rx2,
    Max31856.__init__ tc cr0 cr1 w = (Ok tt, w')
    ∧ tctypes !! tc = Some code
    ∧ tc_type w' = tc
    ∧ length (regs w') = 16%nat
    ∧ log w' = log w ++ [CsValue 1; SpiInit 1000000 0 1; CsValue 0;
                         SpiWriteReadinto (CR0_REG :: replicate 16 0) rx1;
                         CsValue 1; CsValue 0;
                         SpiWrite [0x80; cr0; Z.lor (Z.land cr1 0xF0) code; 0];
                         CsValue 1; CsValue 0;
                         SpiWriteReadinto [CR0_REG; 0; 0; 0] rx2;
                         CsValue 1]
    ∧ length rx1 = 17%nat ∧ length rx2 = 4%nat
    ∧ regs w' = drop 1 rx2 ++ drop 4 rx1.
Proof.
  intros Htc Hcr0 Hcr1.
  assert (∃ code, tctypes !! tc = Some code) as [code Hc].
  { repeat (apply elem_of_cons in Htc as [->|Htc];
            [eexists; vm_compute; reflexivity|]).
    by apply elem_of_nil in Htc. }
  destruct (init_run w tc code cr0 cr1 Hcr0 Hcr1 Hc) as [Hlen ->].
  assert (Hrx1 : length (read_rx
            (mkWorld tc (replicate 16 0) (cs_set (hw w) 1)
                     (log w ++ [CsValue 1; SpiInit 1000000 0 1]))
            CR0_REG 16) = 17%nat) by (by rewrite read_rx_length).
  revert Hlen Hrx1.
  generalize (read_rx (mkWorld tc (replicate 16 0) (cs_set (hw w) 1)
                         (log w ++ [CsValue 1; SpiInit 1000000 0 1]))
                      CR0_REG 16).
  intros rx1 Hlen Hrx1.
  destruct rx1 as [|a [|b0 [|b1 [|b2 m]]]]; try done. cbn [drop] in *.
  cbn [insert list_insert].
  unfold mbind, M_bind.
  rewrite write_regs_run by done. rewrite read_regs_run by done.
  eexists _, code, (a :: b0 :: b1 :: b2 :: m), _.
  split; [reflexivity|]. cbn [tc_type regs log hw].
  assert (Hrx2 : ∀ wx, length (read_rx wx CR0_REG 3) = 4%nat).
  { intros wx. by rewrite read_rx_length. }
  unfold write_buf. cbn [regs].
  rewrite (getslice_range _ 0 3); [|done|done|cbn [length] in *; lia].
  rewrite (setslice_range _ _ 0 3); [|done|done|cbn [length] in *; lia].
  change (Z.to_nat 0) with 0%nat. change (Z.to_nat 3) with 3%nat.
  cbn [take drop Nat.add app]. rewrite !drop_0. cbn [length] in Hlen.
  split_and!; try done.
  - rewrite length_app, length_drop, Hrx2. lia.
  - by rewrite <- !app_assoc.
Qed.
End Constructed.

(** ** Refreshing and decoding *)

Section Refresh.
Context {chip : Type} `{SpiDevice chip}.
Implicit Types (w : World chip).

#[local] Arguments fold_left : simpl never.

Lemma read_data_run w :
  length (regs w) = 16%nat →
  Max31856.read_data w
  = (Ok tt,
     mkWorld (tc_type w)
       (take 10 (regs w) ++ drop 1 (read_rx w CJTH_REG 6))
       (cs_set (spi_transfer (cs_set (hw w) 0) (read_tx CJTH_REG 6)).1 1)
       (log w ++ [CsValue 0;
                  SpiWriteReadinto (read_tx CJTH_REG 6) (read_rx w CJTH_REG 6);
                  CsValue 1])).
Proof.
  intros Hlen. unfold Max31856.read_data. rewrite read_regs_run by done.
  destruct (read_regs_mirror w CJTH_REG 6) as [-> Hd]; [by rewrite ?Hlen..|].
  rewrite (drop_ge (regs w)) by (rewrite Hlen; by vm_compute).
  by rewrite app_nil_r.
Qed.

Lemma temperature_refresh w :
  Max31856.temperature true w
  = match Max31856.read_data w with
    | (Ok _, w1) => Max31856.temperature false w1
    | (Raise e, w1) => (Raise e, w1)
    end.
Proof. reflexivity. Qed.

Lemma cold_junction_refresh w :
  Max31856.cold_junction true w
  = match Max31856.read_data w with
    | (Ok _, w1) => Max31856.cold_junction false w1
    | (Raise e, w1) => (Raise e, w1)
    end.
Proof. reflexivity. Qed.

Lemma faults_refresh w :
  Max31856.faults true w
  = match Max31856.read_data w with
    | (Ok _, w1) => Max31856.faults false w1
    | (Raise e, w1) => (Raise e, w1)
    end.
Proof. reflexivity. Qed.

Lemma faults_run w (f : Z) :
  regs w !! 15%nat = Some f → 0 ≤ f < 256 →
  Max31856.faults false w
  = (Ok (if f =? 0 then (0, ""%string)
         else (f, String.concat "+" (active_faults f))), w).
Proof.
  intros Lf Hf. pose proof (lookup_lt_Some _ _ _ Lf) as Hlt.
  unfold Max31856.faults. unfold_actions. simpl.
  rewrite item_index_in_range by (unfold SR_REG; lia).
  change (Z.to_nat SR_REG) with 15%nat. rewrite Lf. simpl.
  destruct (Z.eqb_spec f 0) as [->|Hne]; [by destruct w|].
  rewrite faults_loop by done. by destruct w.
Qed.

Lemma decoders_unrefreshed_return w :
  length (regs w) = 16%nat →
  (∃ t, Max31856.temperature false w = (Ok t, w))
  ∧ (∃ t, Max31856.cold_junction false w = (Ok t, w))
  ∧ (∃ ffs, Max31856.faults false w = (Ok ffs, w)).
Proof.
  intros Hlen. split_and!.
  - unfold Max31856.temperature. unfold_actions. simpl.
    rewrite getslice_range by (unfold LTCBH_REG; lia).
    unfold struct_unpack_be. rewrite decide_True.
    + eexists. by destruct w.
    + rewrite length_take, length_drop, Hlen. by vm_compute.
  - unfold Max31856.cold_junction. unfold_actions. simpl.
    change (CJTL_REG + 1) with (CJTH_REG + 2).
    rewrite getslice_range by (unfold CJTH_REG; lia).
    unfold struct_unpack_be. rewrite decide_True.
    + eexists. by destruct w.
    + rewrite length_take, length_drop, Hlen. by vm_compute.
  - unfold Max31856.faults. unfold_actions. simpl.
    rewrite item_index_in_range by (unfold SR_REG; lia).
    change (Z.to_nat SR_REG) with 15%nat.
    destruct (lookup_lt_is_Some_2 (regs w) 15) as [f ->]; [lia|]. simpl.
    destruct (f =? 0); eexists; by destruct w.
Qed.

(** X5: on a 16-byte mirror none of the three decoders raises, with or
    without a refresh, whatever the chip answers; each returns a value and
    leaves a 16-byte mirror, and without a refresh it leaves the driver and
    the bus exactly as they were. *)
Theorem decoders_never_raise w (read_chip : bool) :
  length (regs w) = 16%nat →
  (∃ t w', Max31856.temperature read_chip w = (Ok t, w')
           ∧ length (regs w') = 16%nat ∧ (read_chip = false → w' = w))
  ∧ (∃ t w', Max31856.cold_junction read_chip w = (Ok t, w')
             ∧ length (regs w') = 16%nat ∧ (read_chip = false → w' = w))
  ∧ (∃ ffs w', Max31856.faults read_chip w = (Ok ffs, w')
               ∧ length (regs w') = 16%nat ∧ (read_chip = false → w' = w)).
Proof.
  intros Hlen. destruct read_chip.
  - rewrite temperature_refresh, cold_junction_refresh, faults_refresh.
    rewrite read_data_run by done.
    set (w1 := mkWorld _ _ _ _).
    assert (Hlen1 : length (regs w1) = 16%nat).
    { subst w1. cbn [regs].
      rewrite length_app, length_take, length_drop, read_rx_length by done.
      rewrite Hlen. by vm_compute. }
    destruct (decoders_unrefreshed_return w1 Hlen1) as ([t ->] & [c ->] & [f ->]).
    split_and!; eexists _, _; done.
  - destruct (decoders_unrefreshed_return w Hlen) as ([t ->] & [c ->] & [f ->]).
    split_and!; eexists _, _; done.
Qed.
End Refresh.

(** ** One refresh, three readings *)

Section Snapshot.
Context {chip : Type} `{SpiDevice chip}.
Implicit Types (w : World chip).

(** The driver after [read_data] when the chip answers [rx]. *)
Lemma read_data_answer w (a c0 c1 t0 t1 t2 s : Z) :
  length (regs w) = 16%nat →
  read_rx w CJTH_REG 6 = [a; c0; c1; t0; t1; t2; s] →
  let w1 := mkWorld (tc_type w) (take 10 (regs w) ++ [c0; c1; t0; t1; t2; s])
              (cs_set (spi_transfer (cs_set (hw w) 0) (read_tx CJTH_REG 6)).1 1)
              (log w ++ [CsValue 0;
                         SpiWriteReadinto [CJTH_REG; 0; 0; 0; 0; 0; 0]
                                          [a; c0; c1; t0; t1; t2; s];
                         CsValue 1]) in
  Max31856.read_data w = (Ok tt, w1)
  ∧ regs w1 !! 10%nat = Some c0 ∧ regs w1 !! 11%nat = Some c1
  ∧ regs w1 !! 12%nat = Some t0 ∧ regs w1 !! 13%nat = Some t1
  ∧ regs w1 !! 14%nat = Some t2 ∧ regs w1 !! 15%nat = Some s.
Proof.
  intros Hlen Hrx w1. split.
  - rewrite read_data_run by done. by rewrite Hrx.
  - assert (Htake : length (take 10 (regs w)) = 10%nat).
    { rewrite length_take, Hlen. done. }
    subst w1. cbn [regs].
    split_and!; (rewrite lookup_app_r; rewrite Htake; [done|lia]).
Qed.

(** X6: with a refresh, each decoder performs the one read transaction of
    [read_data] and decodes what the chip has just answered: the temperature
    from the fourth to seventh answered bytes, the cold junction from the
    second and third, the faults from the seventh. *)
Theorem refreshed_decoders_use_answer w (a c0 c1 t0 t1 t2 s : Z) :
  length (regs w) = 16%nat →
  read_rx w CJTH_REG 6 = [a; c0; c1; t0; t1; t2; s] →
  0 ≤ c0 < 256 → 0 ≤ c1 < 256 → 0 ≤ t0 < 256 → 0 ≤ t1 < 256 →
  0 ≤ t2 < 256 → 0 ≤ s < 256 →
  let w1 := mkWorld (tc_type w) (take 10 (regs w) ++ [c0; c1; t0; t1; t2; s])
              (cs_set (spi_transfer (cs_set (hw w) 0) (read_tx CJTH_REG 6)).1 1)
              (log w ++ [CsValue 0;
                         SpiWriteReadinto [CJTH_REG; 0; 0; 0; 0; 0; 0]
                                          [a; c0; c1; t0; t1; t2; s];
                         CsValue 1]) in
  Max31856.temperature true w
  = (Ok (PrimFloat.mul (float_of_int (be_signed32 t0 t1 t2 s))
                       9.53674316406e-7%float), w1)
  ∧ Max31856.cold_junction true w
    = (Ok (PrimFloat.mul (float_of_int (be_signed16 c0 c1))
                         (PrimFloat.div (float_of_int 1) 256%float)), w1)
  ∧ Max31856.faults true w
    = (Ok (if s =? 0 then (0, ""%string)
           else (s, String.concat "+" (active_faults s))), w1).
Proof.
  intros Hlen Hrx Hc0 Hc1 Ht0 Ht1 Ht2 Hs w1.
  destruct (read_data_answer w a c0 c1 t0 t1 t2 s Hlen Hrx)
    as (Hrun & L10 & L11 & L12 & L13 & L14 & L15).
  fold w1 in Hrun, L10, L11, L12, L13, L14, L15.
  rewrite temperature_refresh, cold_junction_refresh, faults_refresh, Hrun.
  split_and!.
  - by apply temperature_run.
  - by apply cold_junction_run.
  - by apply faults_run.
Qed.

(** X7: the three readings of one cycle of [main]'s loop cost one bus
    transaction and are taken from one answer of the chip: the temperature
    refreshes the mirror, the cold junction and the faults are then decoded
    from that same refresh. *)
Theorem main_loop_readings_one_snapshot w (a c0 c1 t0 t1 t2 s : Z) :
  length (regs w) = 16%nat →
  read_rx w CJTH_REG 6 = [a; c0; c1; t0; t1; t2; s] →
  0 ≤ c0 < 256 → 0 ≤ c1 < 256 → 0 ≤ t0 < 256 → 0 ≤ t1 < 256 →
  0 ≤ t2 < 256 → 0 ≤ s < 256 →
  ∃ w1,
    main_loop_readings w
    = (Ok (PrimFloat.mul (float_of_int (be_signed32 t0 t1 t2 s))
                         9.53674316406e-7%float,
           PrimFloat.mul (float_of_int (be_signed16 c0 c1))
                         (PrimFloat.div (float_of_int 1) 256%float),
           if s =? 0 then (0, ""%string)
           else (s, String.concat "+" (active_faults s))), w1)
    ∧ log w1 = log w ++ [CsValue 0;
                         SpiWriteReadinto [CJTH_REG; 0; 0; 0; 0; 0; 0]
                                          [a; c0; c1; t0; t1; t2; s];
                         CsValue 1]
    ∧ regs w1 = take 10 (regs w) ++ [c0; c1; t0; t1; t2; s].
Proof.
  intros Hlen Hrx Hc0 Hc1 Ht0 Ht1 Ht2 Hs.
  destruct (read_data_answer w a c0 c1 t0 t1 t2 s Hlen Hrx)
    as (Hrun & L10 & L11 & L12 & L13 & L14 & L15).
  eexists. unfold main_loop_readings, mbind, M_bind.
  rewrite temperature_refresh, Hrun.
  rewrite (temperature_run _ t0 t1 t2 s) by done.
  rewrite (cold_junction_run _ c0 c1) by done.
  rewrite (faults_run _ s) by done.
  split; [reflexivity|]. done.
Qed.
End Snapshot.

(** ** What the decoded values tell *)

Lemma fault_string_injective (f g : Z) :
  0 ≤ f < 256 → 0 ≤ g < 256 →
  String.concat "+" (active_faults f) = String.concat "+" (active_faults g) →
  f = g.
Proof.
  intros Hf Hg Heq.
  pose proof (seqZ_cases2
    (λ f g, implb (String.eqb (String.concat "+" (active_faults f))
                              (String.concat "+" (active_faults g)))
                  (f =? g))
    256 256 ltac:(by vm_compute) f g Hf Hg) as Hb.
  cbv beta in Hb. rewrite Heq, String.eqb_refl in Hb.
  by apply Z.eqb_eq.
Qed.

Lemma cold_junction_bounds (hi lo : Z) :
  0 ≤ hi < 256 → 0 ≤ lo < 256 →
  PrimFloat.leb (-128)%float
    (PrimFloat.mul (float_of_int (be_signed16 hi lo))
                   (PrimFloat.div (float_of_int 1) 256%float)) = true
  ∧ PrimFloat.ltb
      (PrimFloat.mul (float_of_int (be_signed16 hi lo))
                     (PrimFloat.div (float_of_int 1) 256%float))
      128%float = true.
Proof.
  intros Hhi Hlo.
  pose proof (seqZ_cases2
    (λ hi lo,
       let r := PrimFloat.mul (float_of_int (be_signed16 hi lo))
                              (PrimFloat.div (float_of_int 1) 256%float) in
       PrimFloat.leb (-128)%float r && PrimFloat.ltb r 128%float)
    256 256 ltac:(vm_compute; reflexivity) hi lo Hhi Hlo) as Hb.
  cbv beta zeta in Hb. by apply andb_true_iff in Hb.
Qed.

Section Readings.
Context {chip : Type} `{SpiDevice chip}.
Implicit Types (w : World chip).

(** X8: the description string of [faults] loses nothing: two drivers whose
    status bytes differ get different descriptions, the returned code is the
    status byte itself, and the description is empty exactly when the status
    is zero. *)
Theorem faults_description_determines_status w1 w2 (f g : Z) :
  regs w1 !! 15%nat = Some f → regs w2 !! 15%nat = Some g →
  0 ≤ f < 256 → 0 ≤ g < 256 →
  ∃ d1 d2,
    Max31856.faults false w1 = (Ok (f, d1), w1)
    ∧ Max31856.faults false w2 = (Ok (g, d2), w2)
    ∧ (d1 = d2 → f = g)
    ∧ (d1 = ""%string ↔ f = 0).
Proof.
  intros L1 L2 Hf Hg.
  exists (String.concat "+" (active_faults f)),
         (String.concat "+" (active_faults g)).
  rewrite (faults_run w1 f), (faults_run w2 g) by done.
  split_and!.
  - by destruct (Z.eqb_spec f 0) as [->|].
  - by destruct (Z.eqb_spec g 0) as [->|].
  - by apply fault_string_injective.
  - split.
    + intros Hd. by apply (fault_string_injective f 0).
    + by intros ->.
Qed.

(** X9: the cold-junction temperature always lies in [-128, 128). *)
Theorem cold_junction_range w (hi lo : Z) :
  regs w !! 10%nat = Some hi → regs w !! 11%nat = Some lo →
  0 ≤ hi < 256 → 0 ≤ lo < 256 →
  ∃ t, Max31856.cold_junction false w = (Ok t, w)
       ∧ PrimFloat.leb (-128)%float t = true
       ∧ PrimFloat.ltb t 128%float = true.
Proof.
  intros L0 L1 Hhi Hlo. eexists.
  rewrite (cold_junction_run w hi lo) by done.
  split; [reflexivity|]. by apply cold_junction_bounds.
Qed.
End Readings.

(** ** The one-shot trigger and the rest of CR0 *)

Lemma one_shot_other_bits (x : Z) :
  0 ≤ x < 256 →
  Z.land (Z.lor (Z.land x (Z.lnot CR0_AUTOCONVERT)) CR0_ONESHOT) 0x3F
  = Z.land x 0x3F.
Proof.
  intros Hx. apply Z.eqb_eq.
  exact (byte_cases
    (λ x, Z.land (Z.lor (Z.land x (Z.lnot CR0_AUTOCONVERT)) CR0_ONESHOT) 0x3F
          =? Z.land x 0x3F)
    ltac:(by vm_compute) x Hx).
Qed.

Section Trigger.
Context {chip : Type} `{SpiDevice chip}.
Implicit Types (w : World chip).

Lemma one_shot_run w (x : Z) :
  length (regs w) = 16%nat → regs w !! 0%nat = Some x → 0 ≤ x < 256 →
  ∃ e w',
    Max31856.one_shot w = (Raise e, w')
    ∧ regs w' = <[0%nat := Z.lor (Z.land x (Z.lnot CR0_AUTOCONVERT)) CR0_ONESHOT]>
                  (regs w).
Proof.
  intros Hlen Hx Hbyte.
  destruct (one_shot_bits x Hbyte) as (Hb1 & Hb2 & _ & _).
  unfold Max31856.one_shot. unfold_actions. simpl.
  rewrite !item_index_in_range by (rewrite ?length_insert, Hlen; done).
  change (Z.to_nat CR0_REG) with 0%nat.
  rewrite Hx. simpl. rewrite Hb1. simpl.
  rewrite !item_index_in_range by (rewrite ?length_insert, Hlen; done).
  change (Z.to_nat CR0_REG) with 0%nat.
  rewrite list_lookup_insert_eq by (rewrite Hlen; lia). simpl.
  rewrite Hb2. simpl. rewrite list_insert_insert_eq.
  rewrite write_regs_run by done. simpl.
  eexists _, _. split; reflexivity.
Qed.

(** X10: [one_shot] touches bits 7 and 6 of the mirror's CR0 and nothing
    else in the mirror: the low six bits of CR0 (fault modes, cold-junction
    sensing, 50 Hz rejection) and the other fifteen bytes are as before. *)
Theorem one_shot_keeps_configuration w (x : Z) :
  length (regs w) = 16%nat → regs w !! 0%nat = Some x → 0 ≤ x < 256 →
  ∃ e w' x',
    Max31856.one_shot w = (Raise e, w')
    ∧ regs w' !! 0%nat = Some x'
    ∧ Z.land x' 0x3F = Z.land x 0x3F
    ∧ length (regs w') = 16%nat
    ∧ ∀ i : nat, i ≠ 0%nat → regs w' !! i = regs w !! i.
Proof.
  intros Hlen Hx Hbyte.
  destruct (one_shot_run w x Hlen Hx Hbyte) as (e & w' & Hrun & Hregs).
  exists e, w', (Z.lor (Z.land x (Z.lnot CR0_AUTOCONVERT)) CR0_ONESHOT).
  rewrite Hregs. split_and!.
  - done.
  - apply list_lookup_insert_eq. rewrite Hlen. lia.
  - by apply one_shot_other_bits.
  - by rewrite length_insert.
  - intros i Hi. by apply list_lookup_insert_ne.
Qed.
End Trigger.

(** ** Loading the configuration *)

Lemma merge_lookup_other (items : list (string * json)) (c : gmap string json)
    (k : string) :
  k ∉ items.*1 →
  foldl (λ config '(k, v), <[k := v]> config) c items !! k = c !! k.
Proof.
  revert c. induction items as [|[k0 v0] items IH]; intros c Hk; [done|].
  cbn [foldl]. rewrite fmap_cons, not_elem_of_cons in Hk. destruct Hk as [Hne Hk].
  rewrite IH by done. by apply lookup_insert_ne.
Qed.

Lemma merge_lookup_item (items : list (string * json)) (c : gmap string json)
    (k : string) (v : json) :
  NoDup items.*1 → (k, v) ∈ items →
  foldl (λ config '(k, v), <[k := v]> config) c items !! k = Some v.
Proof.
  revert c. induction items as [|[k0 v0] items IH]; intros c Hnd Hin.
  { by apply elem_of_nil in Hin. }
  rewrite fmap_cons in Hnd. apply NoDup_cons in Hnd as [Hfresh Hnd].
  cbn [foldl]. apply elem_of_cons in Hin as [[= -> ->]|Hin].
  - rewrite merge_lookup_other by done. apply lookup_insert_eq.
  - by apply IH.
Qed.

Lemma merge_keeps_keys (items : list (string * json)) (c : gmap string json)
    (k : string) :
  is_Some (c !! k) →
  is_Some (foldl (λ config '(k, v), <[k := v]> config) c items !! k).
Proof.
  revert c. induction items as [|[k0 v0] items IH]; intros c Hk; [done|].
  cbn [foldl]. apply IH. rewrite lookup_insert. by case_decide.
Qed.

(** X11: when [thermo_tx.json] parses to an object, [load_config] overrides
    key by key and one level deep only: each key of the file takes the file's
    value whole (so a file that gives only part of ["mqtt"] drops the other
    default MQTT settings), and every other key keeps its previous value. *)
Theorem load_config_overrides (items : list (string * json))
    (c : gmap string json) :
  NoDup items.*1 →
  ∃ c', load_config (inr (JDict items)) c = (c', None, [])
        ∧ (∀ k v, (k, v) ∈ items → c' !! k = Some v)
        ∧ (∀ k, k ∉ items.*1 → c' !! k = c !! k).
Proof.
  intros Hnd. eexists. split; [reflexivity|]. split.
  - intros k v Hin. by apply merge_lookup_item.
  - intros k Hk. by apply merge_lookup_other.
Qed.

(** X12: whatever happens to the file — it is missing or malformed (the
    exception is caught and reported on one printed line), it parses to an
    object, or it parses to something else (the loop header then raises
    [AttributeError]) — [load_config] never removes a key: the three keys of
    the default [config], among them ["tc_type"], are there afterwards, and
    after a caught exception [config] is exactly as it was. *)
Theorem load_config_keeps_keys (file : string + json) (c : gmap string json)
    (k : string) :
  is_Some (c !! k) →
  is_Some ((load_config file c).1.1 !! k)
  ∧ (∀ msg, file = inl msg →
       load_config file c = (c, None, ["Config exception " +:+ msg])).
Proof.
  intros Hk. split.
  - destruct file as [msg|v]; [done|].
    destruct v; try done. cbn. by apply merge_keeps_keys.
  - by intros msg ->.
Qed.

(** ** The further theorems at work *)



Lemma write_regs_past_end_sends_less_witness :
  (length (regs (world0 0 mirror0)) = 16%nat ∧ 0 ≤ 14 ≤ 16 ∧ 16 ≤ 14 + 6)
  ∧ ∃ w', Max31856.write_regs 14 6 (world0 0 mirror0) = (Ok tt, w')
          ∧ regs w' = regs (world0 0 mirror0)
          ∧ log w' = log (world0 0 mirror0)
                     ++ [CsValue 0;
                         SpiWrite (Z.lor 14 0x80
                                   :: drop (Z.to_nat 14) (regs (world0 0 mirror0)));
                         CsValue 1]
          ∧ length (drop (Z.to_nat 14) (regs (world0 0 mirror0)))
            = Z.to_nat (16 - 14).
Proof.
  split; [split_and!; reflexivity || lia|].
  apply (write_regs_past_end_sends_less (world0 0 mirror0) 14 6);
    reflexivity || lia.
Defined.

Lemma init_leaves_readback_witness :
  ("K"%string ∈ ["B"; "E"; "J"; "K"; "N"; "R"; "S"; "T"; "VG8"; "VG32"]%string
   ∧ 0 ≤ CR0_DEFAULT < 256 ∧ 0 ≤ CR1_DEFAULT < 256)
  ∧ ∃ w' code rx1 rx2,
      Max31856.__init__ "K" CR0_DEFAULT CR1_DEFAULT (world0 0 []) = (Ok tt, w')
      ∧ tctypes !! "K"%string = Some code
      ∧ tc_type w' = "K"%string
      ∧ length (regs w') = 16%nat
      ∧ log w' = log (world0 0 [])
                 ++ [CsValue 1; SpiInit 1000000 0 1; CsValue 0;
                     SpiWriteReadinto (CR0_REG :: replicate 16 0) rx1;
                     CsValue 1; CsValue 0;
                     SpiWrite [0x80; CR0_DEFAULT;
                               Z.lor (Z.land CR1_DEFAULT 0xF0) code; 0];
                     CsValue 1; CsValue 0;
                     SpiWriteReadinto [CR0_REG; 0; 0; 0] rx2;
                     CsValue 1]
      ∧ length rx1 = 17%nat ∧ length rx2 = 4%nat
      ∧ regs w' = drop 1 rx2 ++ drop 4 rx1.
Proof.
  assert (HK : "K"%string
               ∈ ["B"; "E"; "J"; "K"; "N"; "R"; "S"; "T"; "VG8"; "VG32"]%string).
  { apply (bool_decide_unpack _). by vm_compute. }
  split; [split_and!; done || by vm_compute|].
  apply (init_leaves_readback (world0 0 []) "K" CR0_DEFAULT CR1_DEFAULT);
    [done|by vm_compute|by vm_compute].
Defined.

Lemma decoders_never_raise_witness :
  length (regs (world0 0 mirror0)) = 16%nat
  ∧ ∃ t w', Max31856.temperature true (world0 0 mirror0) = (Ok t, w')
            ∧ length (regs w') = 16%nat
            ∧ (true = false → w' = world0 0 mirror0).
Proof.
  split; [reflexivity|].
  apply (decoders_never_raise (world0 0 mirror0) true). reflexivity.
Defined.

Lemma refreshed_decoders_use_answer_witness :
  (length (regs (world0 0 mirror0)) = 16%nat
   ∧ read_rx (world0 0 mirror0) CJTH_REG 6 = [0; 1; 2; 3; 4; 5; 6])
  ∧ ∃ w1,
      Max31856.temperature true (world0 0 mirror0)
      = (Ok (PrimFloat.mul (float_of_int (be_signed32 3 4 5 6))
                           9.53674316406e-7%float), w1)
      ∧ Max31856.cold_junction true (world0 0 mirror0)
        = (Ok (PrimFloat.mul (float_of_int (be_signed16 1 2))
                             (PrimFloat.div (float_of_int 1) 256%float)), w1)
      ∧ Max31856.faults true (world0 0 mirror0)
        = (Ok (if 6 =? 0 then (0, ""%string)
               else (6, String.concat "+" (active_faults 6))), w1).
Proof.
  split; [split; reflexivity|]. eexists.
  apply (refreshed_decoders_use_answer (world0 0 mirror0) 0 1 2 3 4 5 6);
    reflexivity || lia.
Defined.

Lemma main_loop_readings_one_snapshot_witness :
  (length (regs (world0 0 mirror0)) = 16%nat
   ∧ read_rx (world0 0 mirror0) CJTH_REG 6 = [0; 1; 2; 3; 4; 5; 6])
  ∧ ∃ w1,
      main_loop_readings (world0 0 mirror0)
      = (Ok (PrimFloat.mul (float_of_int (be_signed32 3 4 5 6))
                           9.53674316406e-7%float,
             PrimFloat.mul (float_of_int (be_signed16 1 2))
                           (PrimFloat.div (float_of_int 1) 256%float),
             if 6 =? 0 then (0, ""%string)
             else (6, String.concat "+" (active_faults 6))), w1)
      ∧ log w1 = log (world0 0 mirror0)
                 ++ [CsValue 0;
                     SpiWriteReadinto [CJTH_REG; 0; 0; 0; 0; 0; 0]
                                      [0; 1; 2; 3; 4; 5; 6];
                     CsValue 1]
      ∧ regs w1 = take 10 (regs (world0 0 mirror0)) ++ [1; 2; 3; 4; 5; 6].
Proof.
  split; [split; reflexivity|].
  apply (main_loop_readings_one_snapshot (world0 0 mirror0) 0 1 2 3 4 5 6);
    reflexivity || lia.
Defined.

Lemma faults_description_determines_status_witness :
  (regs (world0 0 (<[15%nat := 0x11]> mirror0)) !! 15%nat = Some 0x11
   ∧ regs (world0 0 (<[15%nat := 0x01]> mirror0)) !! 15%nat = Some 0x01)
  ∧ ∃ d1 d2,
      Max31856.faults false (world0 0 (<[15%nat := 0x11]> mirror0))
      = (Ok (0x11, d1), world0 0 (<[15%nat := 0x11]> mirror0))
      ∧ Max31856.faults false (world0 0 (<[15%nat := 0x01]> mirror0))
        = (Ok (0x01, d2), world0 0 (<[15%nat := 0x01]> mirror0))
      ∧ (d1 = d2 → 0x11 = 0x01)
      ∧ (d1 = ""%string ↔ 0x11 = 0).
Proof.
  split; [split; reflexivity|].
  apply (faults_description_determines_status
           (world0 0 (<[15%nat := 0x11]> mirror0))
           (world0 0 (<[15%nat := 0x01]> mirror0)) 0x11 0x01);
    reflexivity || lia.
Defined.

Lemma cold_junction_range_witness :
  (regs (world0 0 mirror_cj_neg) !! 10%nat = Some 0xF7
   ∧ regs (world0 0 mirror_cj_neg) !! 11%nat = Some 0x00)
  ∧ ∃ t, Max31856.cold_junction false (world0 0 mirror_cj_neg)
         = (Ok t, world0 0 mirror_cj_neg)
         ∧ PrimFloat.leb (-128)%float t = true
         ∧ PrimFloat.ltb t 128%float = true.
Proof.
  split; [split; reflexivity|].
  apply (cold_junction_range (world0 0 mirror_cj_neg) 0xF7 0x00);
    reflexivity || lia.
Defined.

Lemma one_shot_keeps_configuration_witness :
  (length (regs (world0 0 (<[0%nat := 0x93]> mirror0))) = 16%nat
   ∧ regs (world0 0 (<[0%nat := 0x93]> mirror0)) !! 0%nat = Some 0x93)
  ∧ ∃ e w' x',
      Max31856.one_shot (world0 0 (<[0%nat := 0x93]> mirror0)) = (Raise e, w')
      ∧ regs w' !! 0%nat = Some x'
      ∧ Z.land x' 0x3F = Z.land 0x93 0x3F
      ∧ length (regs w') = 16%nat
      ∧ ∀ i : nat, i ≠ 0%nat →
          regs w' !! i = regs (world0 0 (<[0%nat := 0x93]> mirror0)) !! i.
Proof.
  split; [split; reflexivity|].
  apply (one_shot_keeps_configuration (world0 0 (<[0%nat := 0x93]> mirror0)) 0x93);
    reflexivity || lia.
Defined.

Lemma load_config_overrides_witness :
  NoDup [("mqtt", JDict [("server", JStr "broker.lan")]); ("tc_type", JStr "J")].*1
  ∧ ∃ c', load_config
            (inr (JDict [("mqtt", JDict [("server", JStr "broker.lan")]);
                         ("tc_type", JStr "J")])) config
          = (c', None, [])
          ∧ (∀ k v, (k, v) ∈ [("mqtt", JDict [("server", JStr "broker.lan")]);
                              ("tc_type", JStr "J")] → c' !! k = Some v)
          ∧ (∀ k, k ∉ [("mqtt", JDict [("server", JStr "broker.lan")]);
                       ("tc_type", JStr "J")].*1 → c' !! k = config !! k).
Proof.
  assert (Hnd : NoDup [("mqtt", JDict [("server", JStr "broker.lan")]);
                       ("tc_type", JStr "J")].*1).
  { apply (bool_decide_unpack _). by vm_compute. }
  split; [done|].
  by apply (load_config_overrides
              [("mqtt", JDict [("server", JStr "broker.lan")]);
               ("tc_type", JStr "J")] config).
Defined.

Lemma load_config_keeps_keys_witness :
  is_Some (config !! "tc_type"%string)
  ∧ is_Some ((load_config (inr (JList [])) config).1.1 !! "tc_type"%string)
  ∧ (∀ msg, inr (JList []) = inl msg →
       load_config (inr (JList [])) config
       = (config, None, ["Config exception " +:+ msg])).
Proof.
  assert (Hk : is_Some (config !! "tc_type"%string)).
  { exists (JStr "K"). by vm_compute. }
  split; [done|].
  by apply (load_config_keeps_keys (inr (JList [])) config "tc_type").
Defined.
